(** * FocusPals front end: attention tracker and content-switch controller

    A shallow embedding of the decision logic of
    [src/app/ui/studio-panel/studio-panel.tsx] (the [AttentionLevelTracker]
    component) and of [src/app/dashboard/page.tsx] (the [Dashboard]
    component), with the properties of the specification stated over it.

    React state is threaded explicitly: every [useState] cell and every
    [useRef] cell is a record field, every handler is a function from state
    to state together with what it emits, and [Date.now()] is an argument.
    JavaScript numbers are rationals ([Q]) where the code can receive a
    fraction (the socket payload) and integers ([Z]) once [Math.round] has
    been applied. *)

From Stdlib Require Import ZArith QArith Qround List String Bool Lia.
Import ListNotations.
Open Scope Z_scope.

(** ** JavaScript primitives used by the two components *)

Module JS.

(** [Math.round]: the nearest integer, ties towards plus infinity. *)
Definition Math_round (q : Q) : Z := Qfloor (q + (1 # 2)).

(** [arr.slice(-n)]: the last [n] elements, the whole array when it is
    shorter. *)
Definition slice_last {A : Type} (n : nat) (arr : list A) : list A :=
  skipn (List.length arr - n) arr.

(** [arr.reduce((acc, score) => acc + score, 0)]. *)
Definition reduce_sum (arr : list Z) : Z := fold_left Z.add arr 0.

(** A value of type [any] that is either [undefined] or a string; the
    empty string and [undefined] are falsy. *)
Definition any := option string.

Definition truthy (v : any) : bool :=
  match v with
  | None => false
  | Some s => negb (String.eqb s "")
  end.

(** [a || b]. *)
Definition or_else (a b : any) : any := if truthy a then a else b.

End JS.

(** ** The notification passed to [onAttentionChange] *)

Module AttentionData.

Record t : Type := mk {
  attentionLevel : Z;
  shouldSwitchContent : bool
}.

End AttentionData.

(** ** [AttentionLevelTracker] (studio-panel.tsx) *)

Module Tracker.

Definition SUGGESTION_COOLDOWN : Z := 60000.
Definition FOCUS_HISTORY_SIZE : nat := 5.
Definition LOW_FOCUS_THRESHOLD : Z := 40.

(** The dependency array of the averaging effect,
    [[focusScoreHistory, showContentSuggestionModal, onAttentionChange]].
    Arrays and callbacks are compared by identity: [depHistory] is the
    identity of the history array (every update installs a fresh array) and
    [depCallback] the identity of the callback prop ([None] when absent). *)
Record Deps : Type := mkDeps {
  depHistory : nat;
  depModal : bool;
  depCallback : option nat
}.

Definition Deps_eqb (a b : Deps) : bool :=
  Nat.eqb (depHistory a) (depHistory b)
  && Bool.eqb (depModal a) (depModal b)
  && match depCallback a, depCallback b with
     | None, None => true
     | Some x, Some y => Nat.eqb x y
     | _, _ => false
     end.

Record State : Type := mkState {
  attentionLevel : Z;
  focusScoreHistory : list Z;
  historyId : nat;
  averageFocusScore : Z;
  showContentSuggestionModal : bool;
  lastSuggestionTimeRef : option Z;
  effectDeps : option Deps
}.

(** What a handler or effect emits: a [console.error] line or a call of
    the [onAttentionChange] prop. *)
Inductive Output : Type :=
| ConsoleError
| AttentionChanged (d : AttentionData.t).

(** The component as first rendered, before any effect has run. *)
Definition initial : State :=
  {| attentionLevel := 75;
     focusScoreHistory := [];
     historyId := 0;
     averageFocusScore := 75;
     showContentSuggestionModal := false;
     lastSuggestionTimeRef := None;
     effectDeps := None |}.

(** The updater given to [setFocusScoreHistory]. *)
Definition pushHistory (prevHistory : list Z) (roundedScore : Z) : list Z :=
  let newHistory := prevHistory ++ [roundedScore] in
  if (FOCUS_HISTORY_SIZE <? List.length newHistory)%nat
  then JS.slice_last FOCUS_HISTORY_SIZE newHistory
  else newHistory.

(** The ['focusScoreUpdate'] listener; [focusScore] is [None] for
    [undefined].  The flag tells whether a state setter was called. *)
Definition onFocusScoreUpdate (focusScore : option Q) (st : State)
  : State * list Output * bool :=
  match focusScore with
  | Some score =>
      let roundedScore := JS.Math_round score in
      ({| attentionLevel := roundedScore;
          focusScoreHistory := pushHistory (focusScoreHistory st) roundedScore;
          historyId := S (historyId st);
          averageFocusScore := averageFocusScore st;
          showContentSuggestionModal := showContentSuggestionModal st;
          lastSuggestionTimeRef := lastSuggestionTimeRef st;
          effectDeps := effectDeps st |}, [], true)
  | None => (st, [ConsoleError], false)
  end.

(** [lastSuggestionTimeRef.current && currentTime - lastSuggestionTimeRef.current
    < SUGGESTION_COOLDOWN], read as a condition: [null] and [0] are falsy. *)
Definition isOnCooldown (ref : option Z) (currentTime : Z) : bool :=
  match ref with
  | None => false
  | Some t => negb (t =? 0) && (currentTime - t <? SUGGESTION_COOLDOWN)
  end.

(** [Math.round(sum / focusScoreHistory.length)], computed exactly.  The
    code adds and divides in IEEE doubles, which gives the same result as
    long as the sum stays within 2^53 in absolute value, in particular for
    scores in [0, 100]. *)
Definition average (history : list Z) : Z :=
  JS.Math_round (inject_Z (JS.reduce_sum history)
                 / inject_Z (Z.of_nat (List.length history))).

Definition setAverage (avg : Z) (st : State) : State :=
  {| attentionLevel := attentionLevel st;
     focusScoreHistory := focusScoreHistory st;
     historyId := historyId st;
     averageFocusScore := avg;
     showContentSuggestionModal := showContentSuggestionModal st;
     lastSuggestionTimeRef := lastSuggestionTimeRef st;
     effectDeps := effectDeps st |}.

Definition setShowContentSuggestionModal (open : bool) (st : State) : State :=
  {| attentionLevel := attentionLevel st;
     focusScoreHistory := focusScoreHistory st;
     historyId := historyId st;
     averageFocusScore := averageFocusScore st;
     showContentSuggestionModal := open;
     lastSuggestionTimeRef := lastSuggestionTimeRef st;
     effectDeps := effectDeps st |}.

Definition setLastSuggestionTime (now : Z) (st : State) : State :=
  {| attentionLevel := attentionLevel st;
     focusScoreHistory := focusScoreHistory st;
     historyId := historyId st;
     averageFocusScore := averageFocusScore st;
     showContentSuggestionModal := showContentSuggestionModal st;
     lastSuggestionTimeRef := Some now;
     effectDeps := effectDeps st |}.

Definition setEffectDeps (d : Deps) (st : State) : State :=
  {| attentionLevel := attentionLevel st;
     focusScoreHistory := focusScoreHistory st;
     historyId := historyId st;
     averageFocusScore := averageFocusScore st;
     showContentSuggestionModal := showContentSuggestionModal st;
     lastSuggestionTimeRef := lastSuggestionTimeRef st;
     effectDeps := Some d |}.

(** The body of the averaging effect (lines 178-209), run at time
    [currentTime] with the callback prop present or not. *)
Definition averageEffect (currentTime : Z) (onAttentionChange : option nat)
    (st : State) : State * list Output :=
  match focusScoreHistory st with
  | [] => (st, [])
  | _ :: _ =>
      let avg := average (focusScoreHistory st) in
      let st1 := setAverage avg st in
      let st2 :=
        if (FOCUS_HISTORY_SIZE <=? List.length (focusScoreHistory st))%nat
           && (avg <? LOW_FOCUS_THRESHOLD)
           && negb (isOnCooldown (lastSuggestionTimeRef st) currentTime)
           && negb (showContentSuggestionModal st)
        then setShowContentSuggestionModal true st1
        else st1 in
      (st2,
       match onAttentionChange with
       | Some _ => [AttentionChanged
                      {| AttentionData.attentionLevel := avg;
                         AttentionData.shouldSwitchContent := false |}]
       | None => []
       end)
  end.

(** The dependencies as the current render sees them. *)
Definition currentDeps (onAttentionChange : option nat) (st : State) : Deps :=
  {| depHistory := historyId st;
     depModal := showContentSuggestionModal st;
     depCallback := onAttentionChange |}.

Definition depsChanged (onAttentionChange : option nat) (st : State) : bool :=
  match effectDeps st with
  | None => true
  | Some d => negb (Deps_eqb d (currentDeps onAttentionChange st))
  end.

(** Rendering after a state change: the effect runs when one of its
    dependencies differs from the value it last ran with, and a state
    change made by the effect renders again.  [fuel] bounds the number of
    renders; [currentTime] is what [Date.now()] returns in these runs,
    which follow one another at once. *)
Fixpoint commit (fuel : nat) (currentTime : Z) (onAttentionChange : option nat)
    (st : State) : State * list Output :=
  match fuel with
  | O => (st, [])
  | S fuel' =>
      if depsChanged onAttentionChange st then
        let '(st1, out1) :=
          averageEffect currentTime onAttentionChange
            (setEffectDeps (currentDeps onAttentionChange st) st) in
        let '(st2, out2) := commit fuel' currentTime onAttentionChange st1 in
        (st2, out1 ++ out2)
      else (st, [])
  end.

(** [handleContentChange]: the "Switch Content" button. *)
Definition handleContentChange (now : Z) (onAttentionChange : option nat)
    (st : State) : State * list Output :=
  (setShowContentSuggestionModal false (setLastSuggestionTime now st),
   match onAttentionChange with
   | Some _ => [AttentionChanged
                  {| AttentionData.attentionLevel := averageFocusScore st;
                     AttentionData.shouldSwitchContent := true |}]
   | None => []
   end).

(** [handleDismissSuggestion]: the "Dismiss" button. *)
Definition handleDismissSuggestion (now : Z) (st : State) : State :=
  setShowContentSuggestionModal false (setLastSuggestionTime now st).

(** The dialog's [onOpenChange], which is [setShowContentSuggestionModal]
    itself (Escape or a click outside calls it with [false]). *)
Definition onOpenChange (open : bool) (st : State) : State :=
  setShowContentSuggestionModal open st.

(** Renders allowed after one event; two are always enough (see
    [commit_stable]). *)
Definition RENDER_FUEL : nat := 4.

(** One inbound socket event, followed by the renders it causes. *)
Definition onSample (currentTime : Z) (onAttentionChange : option nat)
    (focusScore : option Q) (st : State) : State * list Output :=
  let '(st1, out1, rendered) := onFocusScoreUpdate focusScore st in
  if rendered then
    let '(st2, out2) := commit RENDER_FUEL currentTime onAttentionChange st1 in
    (st2, out1 ++ out2)
  else (st1, out1).

(** The dialog closed through [onOpenChange], followed by the renders. *)
Definition onClose (currentTime : Z) (onAttentionChange : option nat)
    (st : State) : State * list Output :=
  commit RENDER_FUEL currentTime onAttentionChange (onOpenChange false st).

(** The notifications among the outputs. *)
Fixpoint notifications (out : list Output) : list AttentionData.t :=
  match out with
  | [] => []
  | ConsoleError :: rest => notifications rest
  | AttentionChanged d :: rest => d :: notifications rest
  end.

End Tracker.

(** ** The body of the [/process-pdf] response *)

Module Api.

(** [text], [flipcard], [tiktok], [quiz] and [mini] are [None] when the
    property is missing from the body (so that reading its [.data] throws a
    [TypeError]) and [Some v] when it is an object whose [.data] is [v]. *)
Record Result : Type := mkResult {
  text : option JS.any;
  flipcard : option JS.any;
  tiktok : option JS.any;
  quiz : option JS.any;
  mini : option JS.any;
  data : JS.any
}.

(** What [await fetch(...)] followed by [await response.json()] yields. *)
Inductive Response : Type :=
| Rejected                                 (* fetch itself rejects *)
| Resolved (ok : bool) (body : option Result).  (* [None]: body is not JSON *)

End Api.

(** ** [Dashboard] (dashboard/page.tsx) *)

Module Dashboard.

Record ContentData : Type := mkContentData {
  focusScore : Z;
  type : string;
  data : JS.any;
  timestamp : option Z
}.

(** [requests] counts the POSTs issued to [/process-pdf]; [currentDataId]
    is the identity of the [currentData] object, on which the memoised
    callbacks depend. *)
Record State : Type := mkState {
  selectedFile : option string;
  currentData : option ContentData;
  currentDataId : nat;
  isLoading : bool;
  attentionData : AttentionData.t;
  requests : nat
}.

Definition initial : State :=
  {| selectedFile := None;
     currentData := None;
     currentDataId := 0;
     isLoading := false;
     attentionData := {| AttentionData.attentionLevel := 75;
                         AttentionData.shouldSwitchContent := false |};
     requests := 0 |}.

Inductive Error : Type :=
| NetworkError
| FailedToProcessPDF
| SyntaxError
| TypeError.

Definition setCurrentData (c : option ContentData) (d : State) : State :=
  {| selectedFile := selectedFile d;
     currentData := c;
     currentDataId := S (currentDataId d);
     isLoading := isLoading d;
     attentionData := attentionData d;
     requests := requests d |}.

Definition setIsLoading (b : bool) (d : State) : State :=
  {| selectedFile := selectedFile d;
     currentData := currentData d;
     currentDataId := currentDataId d;
     isLoading := b;
     attentionData := attentionData d;
     requests := requests d |}.

Definition setAttentionData (a : AttentionData.t) (d : State) : State :=
  {| selectedFile := selectedFile d;
     currentData := currentData d;
     currentDataId := currentDataId d;
     isLoading := isLoading d;
     attentionData := a;
     requests := requests d |}.

Definition setSelectedFile (f : string) (d : State) : State :=
  {| selectedFile := Some f;
     currentData := currentData d;
     currentDataId := currentDataId d;
     isLoading := isLoading d;
     attentionData := attentionData d;
     requests := requests d |}.

Definition postRequest (d : State) : State :=
  {| selectedFile := selectedFile d;
     currentData := currentData d;
     currentDataId := currentDataId d;
     isLoading := isLoading d;
     attentionData := attentionData d;
     requests := S (requests d) |}.

(** [result.<section>.data || result.data], throwing when the section is
    missing. *)
Definition sectionData (section : option JS.any) (fallback : JS.any)
  : Error + JS.any :=
  match section with
  | None => inl TypeError
  | Some v => inr (JS.or_else v fallback)
  end.

(** Lines 65-80 of [fetchContent]: type and payload by focus score. *)
Definition assignTypeAndData (focusScore : Z) (result : Api.Result)
  : Error + ContentData :=
  let finish (ty : string) (section : option JS.any) :=
    match sectionData section (Api.data result) with
    | inl e => inl e
    | inr v => inr {| focusScore := focusScore; type := ty; data := v;
                      timestamp := None |}
    end in
  if focusScore >? 80 then finish "text"%string (Api.text result)
  else if focusScore >? 60 then finish "flipcard"%string (Api.flipcard result)
  else if focusScore >? 40 then finish "tiktok"%string (Api.tiktok result)
  else if focusScore >? 20 then finish "quiz"%string (Api.quiz result)
  else finish "react"%string (Api.mini result).

(** The [try] block of [fetchContent], from the response on. *)
Definition tryBlock (focusScore : Z) (response : Api.Response)
  : Error + ContentData :=
  match response with
  | Api.Rejected => inl NetworkError
  | Api.Resolved false _ => inl FailedToProcessPDF
  | Api.Resolved true None => inl SyntaxError
  | Api.Resolved true (Some result) => assignTypeAndData focusScore result
  end.

(** [fetchContent] up to its first [await]: the early return without a
    selected file, otherwise the request is issued and the attention level
    of the current render is captured. *)
Definition fetchContent_start (d : State) : State * option Z :=
  match selectedFile d with
  | None => (d, None)
  | Some _ =>
      (postRequest (setIsLoading true d),
       Some (AttentionData.attentionLevel (attentionData d)))
  end.

(** [fetchContent] from the awaited response on, in whatever state the
    component then is. *)
Definition fetchContent_finish (focusScore : Z) (response : Api.Response)
    (d : State) : State :=
  match tryBlock focusScore response with
  | inr contentData => setIsLoading false (setCurrentData (Some contentData) d)
  | inl _ => setIsLoading false d
  end.

Definition fetchContent (response : Api.Response) (d : State) : State :=
  match fetchContent_start d with
  | (d1, Some focusScore) => fetchContent_finish focusScore response d1
  | (d1, None) => d1
  end.

(** Lines 110-121 of [updateContentType]. *)
Definition newTypeFor (attentionLevel : Z) : string :=
  if attentionLevel >? 80 then "text"
  else if attentionLevel >? 60 then "flipcard"
  else if attentionLevel >? 40 then "tiktok"
  else if attentionLevel >? 20 then "quiz"
  else "react".

Definition updateContentType (now : Z) (attentionLevel : Z) (d : State)
  : State :=
  match currentData d with
  | None => d
  | Some current =>
      let newType := newTypeFor attentionLevel in
      if negb (String.eqb newType (type current)) then
        setCurrentData
          (match currentData d with
           | None => None
           | Some prevData =>
               Some {| focusScore := attentionLevel;
                       type := newType;
                       data := data prevData;
                       timestamp := Some now |}
           end) d
      else d
  end.

Definition handleAttentionChange (now : Z) (a : AttentionData.t) (d : State)
  : State :=
  let d1 := setAttentionData a d in
  match currentData d with
  | Some _ =>
      if AttentionData.shouldSwitchContent a
      then updateContentType now (AttentionData.attentionLevel a) d1
      else d1
  | None => d1
  end.

(** The effect of lines 162-166. *)
Definition attentionEffect (now : Z) (d : State) : State :=
  match currentData d with
  | Some _ =>
      if AttentionData.shouldSwitchContent (attentionData d)
      then updateContentType now
             (AttentionData.attentionLevel (attentionData d)) d
      else d
  | None => d
  end.

(** One call of the [onAttentionChange] prop and the render after it. *)
Definition deliver (now : Z) (d : State) (a : AttentionData.t) : State :=
  attentionEffect now (handleAttentionChange now a d).

Definition deliverAll (now : Z) (out : list Tracker.Output) (d : State)
  : State :=
  fold_left (deliver now) (Tracker.notifications out) d.

(** The active format, when there is content. *)
Definition format (d : State) : option string :=
  match currentData d with
  | None => None
  | Some c => Some (type c)
  end.

End Dashboard.

(** ** The two components together *)

Module System.

Definition State : Type := (Tracker.State * Dashboard.State)%type.

Inductive Event : Type :=
| Sample (now : Z) (focusScore : option Q)
| Confirm (now : Z)
| Dismiss (now : Z)
| Close (now : Z).

Definition isConfirm (e : Event) : bool :=
  match e with
  | Confirm _ => true
  | _ => false
  end.

(** The callback prop is [handleAttentionChange], memoised on
    [currentData]. *)
Definition callback (d : Dashboard.State) : option nat :=
  Some (Dashboard.currentDataId d).

Definition step (s : State) (e : Event) : State :=
  let '(st, d) := s in
  match e with
  | Sample now focusScore =>
      let '(st1, out) := Tracker.onSample now (callback d) focusScore st in
      (st1, Dashboard.deliverAll now out d)
  | Confirm now =>
      let '(st1, out1) := Tracker.handleContentChange now (callback d) st in
      let d1 := Dashboard.deliverAll now out1 d in
      let '(st2, out2) :=
        Tracker.commit Tracker.RENDER_FUEL now (callback d1) st1 in
      (st2, Dashboard.deliverAll now out2 d1)
  | Dismiss now =>
      let '(st1, out) :=
        Tracker.commit Tracker.RENDER_FUEL now (callback d)
          (Tracker.handleDismissSuggestion now st) in
      (st1, Dashboard.deliverAll now out d)
  | Close now =>
      let '(st1, out) := Tracker.onClose now (callback d) st in
      (st1, Dashboard.deliverAll now out d)
  end.

Definition run (events : list Event) (s : State) : State :=
  fold_left step events s.

End System.

(** ** The specification's vocabulary

    These definitions follow the wording of the specification, not the
    code; the theorems below compare the two. *)

Module Spec.

(** The sum of a sequence of samples. *)
Fixpoint total (samples : list Z) : Z :=
  match samples with
  | [] => 0
  | x :: rest => x + total rest
  end.

(** [round(sum(window) / len(window))] in integer arithmetic: the nearest
    integer to the mean, a tie going up. *)
Definition roundedMean (window : list Z) : Z :=
  let n := Z.of_nat (List.length window) in
  (2 * total window + n) / (2 * n).

(** The [n] most recent entries of a sequence kept in arrival order. *)
Definition mostRecent {A : Type} (n : nat) (samples : list A) : list A :=
  rev (firstn n (rev samples)).

(** The threshold table of section 4.2, with the code's names for the
    formats (text, flipcard, tiktok, quiz, react for Text, FlipCard,
    ShortForm, Quiz, Interactive). *)
Definition inBand (lo hi : Z) (signal : Z) : bool :=
  (lo <=? signal) && (signal <=? hi).

(** The condition of section 4.3 as the specification words it: at least
    five entries, mean below 40, more than 60000 ms since the last
    suggestion (or none yet), and not already suggesting. *)
Definition suggestionCondition (history : list Z) (lastSuggestedAt : option Z)
    (now : Z) (suggesting : bool) : Prop :=
  (5 <= List.length history)%nat
  /\ roundedMean history < 40
  /\ (lastSuggestedAt = None
      \/ exists t, lastSuggestedAt = Some t /\ now - t > 60000)
  /\ suggesting = false.

(** A malformed sample: no value, a value that is not an integer, or one
    outside [0, 100]. *)
Definition malformed (focusScore : option Q) : bool :=
  match focusScore with
  | None => true
  | Some q =>
      negb (Qeq_bool q (inject_Z (Qfloor q)))
      || negb (Qle_bool 0 q) || negb (Qle_bool q 100)
  end.

(** The section of a response body that holds the payload of a format. *)
Definition sectionOf (format : string) (body : Api.Result) : option JS.any :=
  if String.eqb format "text" then Api.text body
  else if String.eqb format "flipcard" then Api.flipcard body
  else if String.eqb format "tiktok" then Api.tiktok body
  else if String.eqb format "quiz" then Api.quiz body
  else if String.eqb format "react" then Api.mini body
  else None.

(** The payload a response body supplies for a format. *)
Definition payloadFor (format : string) (body : Api.Result) : option JS.any :=
  match sectionOf format body with
  | None => None
  | Some v => Some (JS.or_else v (Api.data body))
  end.

(** The format of the threshold table for a signal. *)
Definition formatOf (signal : Z) : string :=
  if 80 <? signal then "text"
  else if inBand 61 80 signal then "flipcard"
  else if inBand 41 60 signal then "tiktok"
  else if inBand 21 40 signal then "quiz"
  else "react".

(** A failed payload fetch: a network error, a response that is not OK, a
    body that is not JSON, or a body without the section of the format
    chosen for the signal. *)
Inductive fetchFails (signal : Z) : Api.Response -> Prop :=
| network_error : fetchFails signal Api.Rejected
| http_not_ok (body : option Api.Result) :
    fetchFails signal (Api.Resolved false body)
| body_not_json : fetchFails signal (Api.Resolved true None)
| section_missing (body : Api.Result) :
    sectionOf (formatOf signal) body = None ->
    fetchFails signal (Api.Resolved true (Some body)).

End Spec.

(** The samples of a run seen as socket events at given times. *)
Definition sampleEvents (samples : list (Z * Z)) : list System.Event :=
  map (fun p => System.Sample (fst p) (Some (inject_Z (snd p)))) samples.

(** ** Vocabulary of the statements *)

(** The test of lines 193-198 without its last conjunct: enough entries, a
    low rounded average and no cooldown. *)
Definition qualifies (currentTime : Z) (st : Tracker.State) : bool :=
  (Tracker.FOCUS_HISTORY_SIZE <=? List.length (Tracker.focusScoreHistory st))%nat
  && (Tracker.average (Tracker.focusScoreHistory st)
      <? Tracker.LOW_FOCUS_THRESHOLD)
  && negb (Tracker.isOnCooldown (Tracker.lastSuggestionTimeRef st) currentTime).

(** The Idle -> Suggesting transition: a run of the averaging effect that
    finds the dialog closed and leaves it open. *)
Definition transitionFires (currentTime : Z) (onAttentionChange : option nat)
    (st : Tracker.State) : Prop :=
  Tracker.showContentSuggestionModal st = false
  /\ Tracker.showContentSuggestionModal
       (fst (Tracker.averageEffect currentTime onAttentionChange st)) = true.

(** The dependencies recorded by the last run of the effect are not ahead
    of the component: the history array they saw is the current one or an
    older one.  Every state the component reaches satisfies this. *)
Definition recorded (st : Tracker.State) : Prop :=
  match Tracker.effectDeps st with
  | None => True
  | Some d => (Tracker.depHistory d <= Tracker.historyId st)%nat
  end.

(** The tracker after the samples [seen]: its history is their last five
    and, once a sample has arrived, its average is their rounded mean. *)
Definition smoothed (seen : list Z) (st : Tracker.State) : Prop :=
  recorded st
  /\ Tracker.focusScoreHistory st = Spec.mostRecent 5 seen
  /\ (seen <> [] ->
      Tracker.averageFocusScore st = Spec.roundedMean (Spec.mostRecent 5 seen)).

(** The notification the averaging effect sends for an average. *)
Definition ambient (avg : Z) : AttentionData.t :=
  {| AttentionData.attentionLevel := avg;
     AttentionData.shouldSwitchContent := false |}.

(** No event of the list is a viewer confirmation. *)
Definition noConfirm (events : list System.Event) : bool :=
  forallb (fun e => negb (System.isConfirm e)) events.

(** ** Concrete sessions used as examples *)

(** A body with a payload for every format. *)
Definition sampleBody : Api.Result :=
  {| Api.text := Some (Some "plain text"%string);
     Api.flipcard := Some (Some "cards"%string);
     Api.tiktok := Some (Some "clips"%string);
     Api.quiz := Some (Some "questions"%string);
     Api.mini := Some (Some "mini app"%string);
     Api.data := None |}.

(** The dashboard after a file was selected at attention level 89 and its
    content fetched: the format is text. *)
Definition readingDashboard : Dashboard.State :=
  Dashboard.fetchContent (Api.Resolved true (Some sampleBody))
    (Dashboard.setSelectedFile "notes.pdf"
       (Dashboard.setAttentionData
          {| AttentionData.attentionLevel := 89;
             AttentionData.shouldSwitchContent := false |}
          Dashboard.initial)).

(** Samples of value 10 arriving at times 0, 1, 2, ... *)
Definition lowSamples (n : nat) : list (Z * Z) :=
  map (fun i => (Z.of_nat i, 10)) (seq 0 n).

(** The tracker after four low samples (no suggestion yet) and after five
    (the dialog is open). *)
Definition afterFourLow : Tracker.State :=
  fst (System.run (sampleEvents (lowSamples 4))
         (Tracker.initial, readingDashboard)).

Definition afterFiveLow : Tracker.State :=
  fst (System.run (sampleEvents (lowSamples 5))
         (Tracker.initial, readingDashboard)).

(** The tracker after five low samples and a dismissal at time 1000. *)
Definition afterDismissal : Tracker.State :=
  fst (System.run (sampleEvents (lowSamples 5) ++ [System.Dismiss 1000])
         (Tracker.initial, readingDashboard)).

(** ** The display helpers of the tracker (studio-panel.tsx) *)

Module Display.

(** [getProgressColor] of [CustomProgress] (lines 59-63). *)
Definition getProgressColor (level : Z) : string :=
  if level <? 30 then "#ef4444"
  else if level <? 70 then "#eab308"
  else "#22c55e".

(** The colour of the label, the nested conditional of lines 260-265. *)
Definition labelColor (attentionLevel : Z) : string :=
  if attentionLevel <? 30 then "#ef4444"
  else if attentionLevel <? 70 then "#eab308"
  else "#22c55e".

(** [getAttentionLabel] (lines 235-240). *)
Definition getAttentionLabel (level : Z) : string :=
  if level <? 30 then "Take a break!"
  else if level <? 70 then "We can do better"
  else if level <? 90 then "LOCKED IN"
  else "LFG".

End Display.

(** ** File upload and selection (dashboard/page.tsx) *)

Module Files.

(** [newFiles[newFiles.length - 1]]: [undefined] on an empty array. *)
Definition latestOf (newFiles : list string) : option string :=
  match newFiles with
  | [] => None
  | _ :: _ => nth_error newFiles (List.length newFiles - 1)
  end.

(** The dashboard with its list of uploaded files.  A file is named by the
    identity of its [File] object.  [selectionSeen] is the value of
    [selectedFile] the effect of lines 155-159 last ran with ([None] before
    it ever ran). *)
Record State : Type := mkState {
  showModal : bool;
  uploadedFiles : list string;
  page : Dashboard.State;
  selectionSeen : option (option string)
}.

(** [setSelectedFile], which also accepts [undefined]. *)
Definition setSelected (file : option string) (d : Dashboard.State)
  : Dashboard.State :=
  {| Dashboard.selectedFile := file;
     Dashboard.currentData := Dashboard.currentData d;
     Dashboard.currentDataId := Dashboard.currentDataId d;
     Dashboard.isLoading := Dashboard.isLoading d;
     Dashboard.attentionData := Dashboard.attentionData d;
     Dashboard.requests := Dashboard.requests d |}.

(** [handleFileUpload] (lines 145-152). *)
Definition handleFileUpload (files : list string) (s : State) : State :=
  let newFiles := files in
  let latestFile := latestOf newFiles in
  {| showModal := showModal s;
     uploadedFiles := uploadedFiles s ++ newFiles;
     page := setSelected latestFile (page s);
     selectionSeen := selectionSeen s |}.

(** [handleFileView] (lines 169-171). *)
Definition handleFileView (file : string) (s : State) : State :=
  {| showModal := showModal s;
     uploadedFiles := uploadedFiles s;
     page := setSelected (Some file) (page s);
     selectionSeen := selectionSeen s |}.

Definition sameFile (a b : option string) : bool :=
  match a, b with
  | None, None => true
  | Some x, Some y => String.eqb x y
  | _, _ => false
  end.

Definition selectionChanged (s : State) : bool :=
  match selectionSeen s with
  | None => true
  | Some seen => negb (sameFile seen (Dashboard.selectedFile (page s)))
  end.

(** The effect of lines 155-159, with dependency [selectedFile]: it runs
    when the selection differs from the one it last saw, and fetches when a
    file is selected.  [response] is what the request will be answered. *)
Definition selectionEffect (response : Api.Response) (s : State) : State :=
  if selectionChanged s then
    {| showModal := showModal s;
       uploadedFiles := uploadedFiles s;
       page := match Dashboard.selectedFile (page s) with
               | Some _ => Dashboard.fetchContent response (page s)
               | None => page s
               end;
       selectionSeen := Some (Dashboard.selectedFile (page s)) |}
  else s.

End Files.

(** ** Vocabulary of the further statements *)

(** The window entries the numeric samples of a session contribute, in
    order: each [focusScore] rounded; other events contribute nothing. *)
Definition roundedSamples (events : list System.Event) : list Z :=
  flat_map (fun e => match e with
                     | System.Sample _ (Some q) => [JS.Math_round q]
                     | _ => []
                     end) events.

(** Every event is a sample. *)
Definition onlySamples (events : list System.Event) : bool :=
  forallb (fun e => match e with
                    | System.Sample _ _ => true
                    | _ => false
                    end) events.

(** Every event is a sample that arrives before [deadline]. *)
Definition samplesBefore (deadline : Z) (events : list System.Event) : bool :=
  forallb (fun e => match e with
                    | System.Sample now _ => now <? deadline
                    | _ => false
                    end) events.

(** Every numeric sample of the session lies in [0, 100]. *)
Definition samplesInRange (events : list System.Event) : bool :=
  forallb (fun e => match e with
                    | System.Sample _ (Some q) =>
                        Qle_bool 0 q && Qle_bool q 100
                    | _ => true
                    end) events.

(** The tracker's side of one event, for a given callback prop. *)
Definition trackerAfter (cb : option nat) (e : System.Event)
    (st : Tracker.State) : Tracker.State :=
  match e with
  | System.Sample now focusScore =>
      fst (Tracker.onSample now cb focusScore st)
  | System.Confirm now | System.Dismiss now =>
      fst (Tracker.commit Tracker.RENDER_FUEL now cb
             (Tracker.handleDismissSuggestion now st))
  | System.Close now => fst (Tracker.onClose now cb st)
  end.

(** The effect has run with the dependencies the component now has. *)
Definition settled (cb : option nat) (st : Tracker.State) : Prop :=
  Tracker.effectDeps st = Some (Tracker.currentDeps cb st).

(** The stored average is the average of the stored history. *)
Definition averaged (st : Tracker.State) : Prop :=
  Tracker.focusScoreHistory st <> [] ->
  Tracker.averageFocusScore st
  = Tracker.average (Tracker.focusScoreHistory st).

(** A session with fractional and out-of-range samples, an undefined one,
    and a dismissal in between. *)
Definition mixedSession : list System.Event :=
  [System.Sample 0 (Some (37 # 10)); System.Sample 1 None;
   System.Sample 2 (Some (150 # 1)); System.Dismiss 3;
   System.Sample 4 (Some (5 # 2))].

(** The upload page showing the text content of [notes.pdf]. *)
Definition readingFiles : Files.State :=
  {| Files.showModal := false;
     Files.uploadedFiles := ["notes.pdf"%string];
     Files.page := readingDashboard;
     Files.selectionSeen := Some (Some "notes.pdf"%string) |}.

(** ** Suspended calls of [fetchContent] (dashboard/page.tsx) *)

Module Pending.

(** The dashboard together with the calls of [fetchContent] that are
    suspended at an [await], oldest first.  Each call holds the
    [attentionData.attentionLevel] of the render that made it, which is
    what line 55 reads when the call resumes. *)
Record State : Type := mkState {
  page : Dashboard.State;
  suspended : list Z
}.

(** A call of [fetchContent], up to its first [await]. *)
Definition start (s : State) : State :=
  match Dashboard.fetchContent_start (page s) with
  | (d1, Some level) => {| page := d1; suspended := suspended s ++ [level] |}
  | (d1, None) => {| page := d1; suspended := suspended s |}
  end.

(** A call of the [onAttentionChange] prop while calls are suspended. *)
Definition notify (now : Z) (s : State) (a : AttentionData.t) : State :=
  {| page := Dashboard.deliver now (page s) a; suspended := suspended s |}.

(** The response to the [i]-th suspended call arrives and the call runs
    to its end. *)
Definition resolve (i : nat) (response : Api.Response) (s : State) : State :=
  match nth_error (suspended s) i with
  | Some level =>
      {| page := Dashboard.fetchContent_finish level response (page s);
         suspended := firstn i (suspended s) ++ skipn (S i) (suspended s) |}
  | None => s
  end.

End Pending.

(** The tracker with the dialog open and a history that has recovered:
    five low samples, then two samples of 100. *)
Definition afterRecovery : Tracker.State :=
  fst (System.run (sampleEvents [(5, 100); (6, 100)])
         (afterFiveLow, readingDashboard)).

(** A session within range, with fractions, an undefined sample and a
    closing of the dialog. *)
Definition fractionalSession : list System.Event :=
  [System.Sample 0 (Some (37 # 10)); System.Sample 1 None;
   System.Close 2; System.Sample 3 (Some (5 # 2))].

(** * Properties *)

(** ** Arithmetic of [Math.round] *)

Lemma Math_round_integer (z : Z) : JS.Math_round (inject_Z z) = z.
Proof.
  unfold JS.Math_round, inject_Z, Qplus, Qfloor. simpl.
  replace (z * 2 + 1) with (1 + z * 2) by lia.
  rewrite Z.div_add by lia. reflexivity.
Qed.

Lemma reduce_sum_acc (l : list Z) (acc : Z) :
  fold_left Z.add l acc = acc + Spec.total l.
Proof.
  revert acc. induction l as [|x l IH]; intros acc; simpl.
  - lia.
  - rewrite IH. lia.
Qed.

Lemma reduce_sum_total (l : list Z) : JS.reduce_sum l = Spec.total l.
Proof. unfold JS.reduce_sum. rewrite reduce_sum_acc. lia. Qed.

(** [Math.round(sum / length)] on a non-empty array of integers is the
    integer rounding of the mean. *)
Lemma average_roundedMean (l : list Z) :
  l <> [] -> Tracker.average l = Spec.roundedMean l.
Proof.
  intros Hne. unfold Tracker.average, Spec.roundedMean.
  rewrite reduce_sum_total.
  destruct l as [|x l]; [congruence|].
  set (s := Spec.total (x :: l)).
  change (List.length (x :: l)) with (S (List.length l)).
  rewrite Nat2Z.inj_succ, <- Zpos_P_of_succ_nat.
  set (p := Pos.of_succ_nat (List.length l)).
  unfold JS.Math_round, Qdiv, Qinv, Qmult, Qplus, Qfloor, inject_Z.
  cbn [Qnum Qden].
  rewrite Pos2Z.inj_mul, !Pos.mul_1_l.
  f_equal; lia.
Qed.

(** ** The sliding window *)

Lemma slice_last_mostRecent {A : Type} (n : nat) (l : list A) :
  JS.slice_last n l = Spec.mostRecent n l.
Proof.
  unfold JS.slice_last, Spec.mostRecent.
  rewrite firstn_rev, rev_involutive. reflexivity.
Qed.

Lemma pushHistory_mostRecent (prev : list Z) (x : Z) :
  Tracker.pushHistory prev x
  = Spec.mostRecent Tracker.FOCUS_HISTORY_SIZE (prev ++ [x]).
Proof.
  unfold Tracker.pushHistory.
  destruct (Nat.ltb_spec Tracker.FOCUS_HISTORY_SIZE (List.length (prev ++ [x])))
    as [Hlt|Hle].
  - apply slice_last_mostRecent.
  - rewrite <- slice_last_mostRecent. unfold JS.slice_last.
    replace (List.length (prev ++ [x]) - Tracker.FOCUS_HISTORY_SIZE)%nat
      with 0%nat by lia.
    reflexivity.
Qed.

Lemma mostRecent_snoc {A : Type} (n : nat) (l : list A) (x : A) :
  Spec.mostRecent (S n) (Spec.mostRecent (S n) l ++ [x])
  = Spec.mostRecent (S n) (l ++ [x]).
Proof.
  unfold Spec.mostRecent.
  rewrite !rev_app_distr. cbn [rev app].
  rewrite !firstn_cons, rev_involutive, firstn_firstn.
  replace (Nat.min n (S n)) with n by lia.
  reflexivity.
Qed.

Lemma mostRecent_short {A : Type} (n : nat) (l : list A) :
  (List.length l <= n)%nat -> Spec.mostRecent n l = l.
Proof.
  intros H. unfold Spec.mostRecent.
  rewrite firstn_all2 by (rewrite length_rev; exact H).
  apply rev_involutive.
Qed.

Lemma mostRecent_length {A : Type} (n : nat) (l : list A) :
  List.length (Spec.mostRecent n l) = Nat.min n (List.length l).
Proof.
  unfold Spec.mostRecent. rewrite length_rev, length_firstn, length_rev.
  reflexivity.
Qed.

Lemma mostRecent_snoc_nonempty {A : Type} (n : nat) (l : list A) (x : A) :
  Spec.mostRecent (S n) (l ++ [x]) <> [].
Proof.
  unfold Spec.mostRecent. rewrite rev_app_distr. simpl.
  intros H. apply (f_equal (@List.length A)) in H.
  rewrite length_app in H. simpl in H. lia.
Qed.

(** ** The averaging effect *)

Lemma averageEffect_frame now cb st :
  let st' := fst (Tracker.averageEffect now cb st) in
  Tracker.focusScoreHistory st' = Tracker.focusScoreHistory st
  /\ Tracker.historyId st' = Tracker.historyId st
  /\ Tracker.lastSuggestionTimeRef st' = Tracker.lastSuggestionTimeRef st
  /\ Tracker.effectDeps st' = Tracker.effectDeps st
  /\ Tracker.attentionLevel st' = Tracker.attentionLevel st.
Proof.
  unfold Tracker.averageEffect.
  destruct (Tracker.focusScoreHistory st) as [|x h] eqn:Hh; cbn [fst].
  - rewrite Hh. repeat split.
  - destruct (_ && _); cbn; rewrite ?Hh; repeat split.
Qed.

Lemma averageEffect_modal now cb st :
  Tracker.showContentSuggestionModal (fst (Tracker.averageEffect now cb st))
  = Tracker.showContentSuggestionModal st || qualifies now st.
Proof.
  unfold Tracker.averageEffect, qualifies.
  destruct (Tracker.focusScoreHistory st) as [|x h] eqn:Hh; cbn [fst].
  - cbn. rewrite orb_false_r. reflexivity.
  - destruct (Tracker.FOCUS_HISTORY_SIZE <=? List.length (x :: h))%nat;
      destruct (Tracker.average (x :: h) <? Tracker.LOW_FOCUS_THRESHOLD);
      destruct (Tracker.isOnCooldown (Tracker.lastSuggestionTimeRef st) now);
      destruct (Tracker.showContentSuggestionModal st) eqn:Hm;
      cbn; rewrite ?Hm; reflexivity.
Qed.

Lemma averageEffect_average now cb st :
  Tracker.focusScoreHistory st <> [] ->
  Tracker.averageFocusScore (fst (Tracker.averageEffect now cb st))
  = Tracker.average (Tracker.focusScoreHistory st).
Proof.
  intros Hne. unfold Tracker.averageEffect.
  destruct (Tracker.focusScoreHistory st) as [|x h] eqn:Hh; [congruence|].
  cbn [fst]. destruct (_ && _); reflexivity.
Qed.

Lemma averageEffect_out now cb st :
  Tracker.focusScoreHistory st <> [] ->
  snd (Tracker.averageEffect now cb st)
  = match cb with
    | Some _ => [Tracker.AttentionChanged
                   (ambient (Tracker.average (Tracker.focusScoreHistory st)))]
    | None => []
    end.
Proof.
  intros Hne. unfold Tracker.averageEffect.
  destruct (Tracker.focusScoreHistory st) as [|x h] eqn:Hh; [congruence|].
  reflexivity.
Qed.

Lemma averageEffect_empty now cb st :
  Tracker.focusScoreHistory st = [] ->
  Tracker.averageEffect now cb st = (st, []).
Proof. intros Hh. unfold Tracker.averageEffect. rewrite Hh. reflexivity. Qed.

(** Every notification of the effect is an ambient one. *)
Lemma averageEffect_ambient now cb st n :
  In n (Tracker.notifications (snd (Tracker.averageEffect now cb st))) ->
  AttentionData.shouldSwitchContent n = false.
Proof.
  unfold Tracker.averageEffect.
  destruct (Tracker.focusScoreHistory st) as [|x h]; cbn [snd].
  - intros [].
  - destruct cb; cbn; [intros [<-|[]]; reflexivity | intros []].
Qed.

Lemma qualifies_ext now st st' :
  Tracker.focusScoreHistory st' = Tracker.focusScoreHistory st ->
  Tracker.lastSuggestionTimeRef st' = Tracker.lastSuggestionTimeRef st ->
  qualifies now st' = qualifies now st.
Proof. intros Hh Hr. unfold qualifies. rewrite Hh, Hr. reflexivity. Qed.

(** ** Rendering until the effect is quiescent *)

Lemma Deps_eqb_refl (d : Tracker.Deps) : Tracker.Deps_eqb d d = true.
Proof.
  unfold Tracker.Deps_eqb.
  rewrite Nat.eqb_refl, Bool.eqb_reflx.
  destruct (Tracker.depCallback d); [apply Nat.eqb_refl | reflexivity].
Qed.

Lemma depsChanged_after_run cb st st1 :
  Tracker.effectDeps st1 = Some (Tracker.currentDeps cb st) ->
  Tracker.historyId st1 = Tracker.historyId st ->
  Tracker.depsChanged cb st1
  = negb (Bool.eqb (Tracker.showContentSuggestionModal st)
                   (Tracker.showContentSuggestionModal st1)).
Proof.
  intros Hd Hi. unfold Tracker.depsChanged, Tracker.Deps_eqb. rewrite Hd.
  cbn. rewrite Hi, Nat.eqb_refl.
  destruct cb; [rewrite Nat.eqb_refl|]; cbn; rewrite andb_true_r; reflexivity.
Qed.

Lemma depsChanged_recorded cb q st :
  recorded st ->
  Tracker.depsChanged cb (fst (fst (Tracker.onFocusScoreUpdate (Some q) st)))
  = true.
Proof.
  unfold recorded, Tracker.depsChanged, Tracker.Deps_eqb. cbn.
  destruct (Tracker.effectDeps st) as [d|]; [|reflexivity].
  intros Hle. cbn.
  replace (Tracker.depHistory d =? S (Tracker.historyId st))%nat with false.
  - reflexivity.
  - symmetry. apply Nat.eqb_neq. lia.
Qed.

(** A render with unchanged dependencies does nothing. *)
Lemma commit_quiescent fuel now cb st :
  Tracker.depsChanged cb st = false ->
  Tracker.commit fuel now cb st = (st, []).
Proof. intros H. destruct fuel; cbn; [|rewrite H]; reflexivity. Qed.

(** With an empty history the effect returns at once. *)
Lemma commit_empty fuel now cb st :
  Tracker.focusScoreHistory st = [] ->
  snd (Tracker.commit fuel now cb st) = []
  /\ Tracker.focusScoreHistory (fst (Tracker.commit fuel now cb st)) = []
  /\ Tracker.showContentSuggestionModal (fst (Tracker.commit fuel now cb st))
     = Tracker.showContentSuggestionModal st
  /\ Tracker.lastSuggestionTimeRef (fst (Tracker.commit fuel now cb st))
     = Tracker.lastSuggestionTimeRef st.
Proof.
  intros Hh. destruct fuel as [|fuel]; cbn; [auto|].
  destruct (Tracker.depsChanged cb st); [|auto].
  rewrite averageEffect_empty by exact Hh.
  rewrite commit_quiescent.
  - cbn. auto.
  - erewrite depsChanged_after_run by reflexivity.
    cbn. rewrite Bool.eqb_reflx. reflexivity.
Qed.

(** The renders caused by a change of dependencies, with a non-empty
    history: the effect runs once, and once more exactly when the first run
    opened the dialog; two renders are always enough. *)
Lemma commit_changed k now cb st :
  Tracker.depsChanged cb st = true ->
  Tracker.focusScoreHistory st <> [] ->
  let r := Tracker.commit (S (S k)) now cb st in
  let fired := negb (Tracker.showContentSuggestionModal st) && qualifies now st in
  Tracker.focusScoreHistory (fst r) = Tracker.focusScoreHistory st
  /\ Tracker.historyId (fst r) = Tracker.historyId st
  /\ Tracker.lastSuggestionTimeRef (fst r) = Tracker.lastSuggestionTimeRef st
  /\ Tracker.averageFocusScore (fst r)
     = Tracker.average (Tracker.focusScoreHistory st)
  /\ Tracker.showContentSuggestionModal (fst r)
     = Tracker.showContentSuggestionModal st || qualifies now st
  /\ Tracker.effectDeps (fst r) = Some (Tracker.currentDeps cb (fst r))
  /\ Tracker.notifications (snd r)
     = match cb with
       | Some _ =>
           repeat (ambient (Tracker.average (Tracker.focusScoreHistory st)))
                  (if fired then 2 else 1)
       | None => []
       end.
Proof.
  intros Hch Hne. cbn zeta.
  change (Tracker.commit (S (S k)) now cb st)
    with (if Tracker.depsChanged cb st then
            let '(st1, out1) :=
              Tracker.averageEffect now cb
                (Tracker.setEffectDeps (Tracker.currentDeps cb st) st) in
            let '(st2, out2) := Tracker.commit (S k) now cb st1 in
            (st2, out1 ++ out2)
          else (st, [])).
  rewrite Hch.
  set (st0 := Tracker.setEffectDeps (Tracker.currentDeps cb st) st).
  assert (Hne0 : Tracker.focusScoreHistory st0 <> []) by exact Hne.
  pose proof (averageEffect_frame now cb st0) as (Fh & Fi & Fr & Fd & _).
  pose proof (averageEffect_modal now cb st0) as Fm.
  pose proof (averageEffect_average now cb st0 Hne0) as Fa.
  pose proof (averageEffect_out now cb st0 Hne0) as Fo.
  destruct (Tracker.averageEffect now cb st0) as [st1 out1].
  cbn [fst snd] in *.
  change (Tracker.focusScoreHistory st0) with (Tracker.focusScoreHistory st) in *.
  change (Tracker.historyId st0) with (Tracker.historyId st) in *.
  change (Tracker.lastSuggestionTimeRef st0)
    with (Tracker.lastSuggestionTimeRef st) in *.
  change (Tracker.showContentSuggestionModal st0)
    with (Tracker.showContentSuggestionModal st) in *.
  change (Tracker.effectDeps st0) with (Some (Tracker.currentDeps cb st)) in *.
  rewrite (qualifies_ext now st st0) in Fm by reflexivity.
  pose proof (depsChanged_after_run cb st st1 Fd Fi) as Hd1.
  destruct (Tracker.showContentSuggestionModal st) eqn:Hm;
    [|destruct (qualifies now st) eqn:Hq]; cbn [negb andb orb] in *.
  - (* dialog already open: one run *)
    rewrite Fm in Hd1. cbn in Hd1.
    rewrite (commit_quiescent _ _ _ _ Hd1). cbn [fst snd].
    rewrite app_nil_r, Fo, Fh, Fi, Fr, Fa, Fm, Fd.
    repeat split.
    + unfold Tracker.currentDeps. rewrite Fi, Fm, Hm. reflexivity.
    + destruct cb; reflexivity.
  - (* the first run opens the dialog: a second run follows *)
    rewrite Fm in Hd1. cbn in Hd1.
    change (Tracker.commit (S k) now cb st1)
      with (if Tracker.depsChanged cb st1 then
              let '(st2, out2) :=
                Tracker.averageEffect now cb
                  (Tracker.setEffectDeps (Tracker.currentDeps cb st1) st1) in
              let '(st3, out3) := Tracker.commit k now cb st2 in
              (st3, out2 ++ out3)
            else (st1, [])).
    rewrite Hd1.
    set (st1' := Tracker.setEffectDeps (Tracker.currentDeps cb st1) st1).
    assert (Hne1 : Tracker.focusScoreHistory st1' <> [])
      by (change (Tracker.focusScoreHistory st1 <> []); rewrite Fh; exact Hne).
    pose proof (averageEffect_frame now cb st1') as (Gh & Gi & Gr & Gd & _).
    pose proof (averageEffect_modal now cb st1') as Gm.
    pose proof (averageEffect_average now cb st1' Hne1) as Ga.
    pose proof (averageEffect_out now cb st1' Hne1) as Go.
    destruct (Tracker.averageEffect now cb st1') as [st2 out2].
    cbn [fst snd] in *.
    change (Tracker.focusScoreHistory st1')
      with (Tracker.focusScoreHistory st1) in *.
    change (Tracker.historyId st1') with (Tracker.historyId st1) in *.
    change (Tracker.lastSuggestionTimeRef st1')
      with (Tracker.lastSuggestionTimeRef st1) in *.
    change (Tracker.showContentSuggestionModal st1')
      with (Tracker.showContentSuggestionModal st1) in *.
    change (Tracker.effectDeps st1')
      with (Some (Tracker.currentDeps cb st1)) in *.
    rewrite Fm in Gm. cbn [orb] in Gm.
    pose proof (depsChanged_after_run cb st1 st2 Gd Gi) as Hd2.
    rewrite Fm, Gm in Hd2. cbn in Hd2.
    rewrite (commit_quiescent _ _ _ _ Hd2). cbn [fst snd].
    rewrite app_nil_r, Fo, Go, Gh, Gi, Gr, Ga, Gm, Gd, Fh, Fi, Fr.
    repeat split.
    + unfold Tracker.currentDeps. rewrite Gi, Gm, Fm, Fi. reflexivity.
    + destruct cb; reflexivity.
  - (* nothing to suggest: one run *)
    rewrite Fm in Hd1. cbn in Hd1.
    rewrite (commit_quiescent _ _ _ _ Hd1). cbn [fst snd].
    rewrite app_nil_r, Fo, Fh, Fi, Fr, Fa, Fm, Fd.
    repeat split.
    + unfold Tracker.currentDeps. rewrite Fi, Fm, Hm. reflexivity.
    + destruct cb; reflexivity.
Qed.

(** Two renders always reach quiescence: more fuel changes nothing. *)
Lemma commit_stable k now cb st :
  Tracker.commit (S (S k)) now cb st = Tracker.commit 2 now cb st.
Proof.
  cbn [Tracker.commit].
  destruct (Tracker.depsChanged cb st); [|reflexivity].
  set (st0 := Tracker.setEffectDeps (Tracker.currentDeps cb st) st).
  pose proof (averageEffect_frame now cb st0) as (_ & Fi & _ & Fd & _).
  pose proof (averageEffect_modal now cb st0) as Fm.
  destruct (Tracker.averageEffect now cb st0) as [st1 out1].
  cbn [fst] in *.
  pose proof (depsChanged_after_run cb st st1 Fd Fi) as Hd1.
  destruct (Tracker.depsChanged cb st1); [|reflexivity].
  set (st1' := Tracker.setEffectDeps (Tracker.currentDeps cb st1) st1).
  pose proof (averageEffect_frame now cb st1') as (_ & Gi & _ & Gd & _).
  pose proof (averageEffect_modal now cb st1') as Gm.
  destruct (Tracker.averageEffect now cb st1') as [st2 out2].
  cbn [fst] in *.
  pose proof (depsChanged_after_run cb st1 st2 Gd Gi) as Hd2.
  change (Tracker.showContentSuggestionModal st1')
    with (Tracker.showContentSuggestionModal st1) in Gm.
  change (Tracker.showContentSuggestionModal st0)
    with (Tracker.showContentSuggestionModal st) in Fm.
  assert (Hopen : Tracker.showContentSuggestionModal st1 = true).
  { destruct (Tracker.showContentSuggestionModal st);
      destruct (Tracker.showContentSuggestionModal st1);
      cbn in Hd1, Fm; congruence. }
  rewrite Hopen in Gm. cbn in Gm. rewrite Hopen, Gm in Hd2. cbn in Hd2.
  rewrite (commit_quiescent _ _ _ _ Hd2). reflexivity.
Qed.

(** ** One inbound sample *)

Lemma pushHistory_nonempty prev x : Tracker.pushHistory prev x <> [].
Proof. rewrite pushHistory_mostRecent. apply mostRecent_snoc_nonempty. Qed.

Lemma onSample_numeric now cb q st :
  recorded st ->
  let st1 := fst (fst (Tracker.onFocusScoreUpdate (Some q) st)) in
  let r := Tracker.onSample now cb (Some q) st in
  let h := Tracker.pushHistory (Tracker.focusScoreHistory st) (JS.Math_round q) in
  let fired := negb (Tracker.showContentSuggestionModal st) && qualifies now st1 in
  Tracker.focusScoreHistory (fst r) = h
  /\ Tracker.lastSuggestionTimeRef (fst r) = Tracker.lastSuggestionTimeRef st
  /\ Tracker.averageFocusScore (fst r) = Tracker.average h
  /\ Tracker.showContentSuggestionModal (fst r)
     = Tracker.showContentSuggestionModal st || qualifies now st1
  /\ recorded (fst r)
  /\ Tracker.notifications (snd r)
     = match cb with
       | Some _ => repeat (ambient (Tracker.average h)) (if fired then 2 else 1)
       | None => []
       end.
Proof.
  intros Hrec. cbn zeta.
  pose proof (depsChanged_recorded cb q st Hrec) as Hch.
  unfold Tracker.onSample.
  set (st1 := fst (fst (Tracker.onFocusScoreUpdate (Some q) st))) in *.
  change (Tracker.onFocusScoreUpdate (Some q) st) with (st1, @nil Tracker.Output, true).
  cbn iota.
  assert (Hne : Tracker.focusScoreHistory st1 <> [])
    by apply pushHistory_nonempty.
  pose proof (commit_changed 2 now cb st1 Hch Hne) as H. cbn zeta in H.
  change (Tracker.commit 4 now cb st1)
    with (Tracker.commit Tracker.RENDER_FUEL now cb st1) in H.
  destruct (Tracker.commit Tracker.RENDER_FUEL now cb st1) as [st2 out2].
  cbn [fst snd app] in *.
  destruct H as (Hh & Hi & Hr & Ha & Hm & Hd & Hn).
  repeat split; try assumption.
  unfold recorded. rewrite Hd. cbn. lia.
Qed.

Lemma onSample_undefined now cb st :
  Tracker.onSample now cb None st = (st, [Tracker.ConsoleError]).
Proof. reflexivity. Qed.

(** The history after a sample, whatever the state. *)
Lemma onSample_history now cb q st :
  Tracker.focusScoreHistory (fst (Tracker.onSample now cb (Some q) st))
  = Tracker.pushHistory (Tracker.focusScoreHistory st) (JS.Math_round q).
Proof.
  unfold Tracker.onSample.
  set (st1 := fst (fst (Tracker.onFocusScoreUpdate (Some q) st))).
  change (Tracker.onFocusScoreUpdate (Some q) st)
    with (st1, @nil Tracker.Output, true).
  cbn iota.
  assert (forall fuel s,
    Tracker.focusScoreHistory (fst (Tracker.commit fuel now cb s))
    = Tracker.focusScoreHistory s) as Hc.
  { induction fuel as [|fuel IH]; intros s; cbn [Tracker.commit]; [reflexivity|].
    destruct (Tracker.depsChanged cb s); [|reflexivity].
    set (s0 := Tracker.setEffectDeps (Tracker.currentDeps cb s) s).
    pose proof (averageEffect_frame now cb s0) as (Fh & _).
    destruct (Tracker.averageEffect now cb s0) as [s1 o1].
    specialize (IH s1).
    destruct (Tracker.commit fuel now cb s1) as [s2 o2].
    cbn [fst] in *. rewrite IH, Fh. reflexivity. }
  specialize (Hc Tracker.RENDER_FUEL st1).
  destruct (Tracker.commit Tracker.RENDER_FUEL now cb st1) as [st2 out2].
  exact Hc.
Qed.

Example afterFourLow_closed :
  Tracker.showContentSuggestionModal afterFourLow = false
  /\ Tracker.focusScoreHistory afterFourLow = [10; 10; 10; 10].
Proof. vm_compute. split; reflexivity. Qed.

Example afterFiveLow_open :
  Tracker.showContentSuggestionModal afterFiveLow = true
  /\ Tracker.averageFocusScore afterFiveLow = 10.
Proof. vm_compute. split; reflexivity. Qed.

Example afterDismissal_state :
  Tracker.showContentSuggestionModal afterDismissal = false
  /\ Tracker.lastSuggestionTimeRef afterDismissal = Some 1000
  /\ Tracker.focusScoreHistory afterDismissal = [10; 10; 10; 10; 10].
Proof. vm_compute. repeat split; reflexivity. Qed.

Example readingDashboard_text :
  Dashboard.currentData readingDashboard
  = Some {| Dashboard.focusScore := 89; Dashboard.type := "text";
            Dashboard.data := Some "plain text"%string;
            Dashboard.timestamp := None |}
  /\ Dashboard.requests readingDashboard = 1%nat.
Proof. vm_compute. split; reflexivity. Qed.

(** ** The suggestion arbiter *)

Lemma cooldown_over (ref : option Z) (now : Z) :
  Tracker.isOnCooldown ref now = false <->
  match ref with
  | None => True
  | Some t => t = 0 \/ now - t >= 60000
  end.
Proof.
  unfold Tracker.isOnCooldown, Tracker.SUGGESTION_COOLDOWN.
  destruct ref as [t|]; [|tauto].
  destruct (Z.eqb_spec t 0) as [->|Hne]; cbn.
  - split; auto.
  - destruct (Z.ltb_spec (now - t) 60000) as [Hlt|Hge]; split; intros Hc;
      try discriminate; try reflexivity; try (right; lia).
    destruct Hc; [contradiction | lia].
Qed.

(** A cooldown that is over stays over. *)
Lemma cooldown_monotone (ref : option Z) (earlier later : Z) :
  earlier <= later ->
  Tracker.isOnCooldown ref earlier = false ->
  Tracker.isOnCooldown ref later = false.
Proof.
  intros Hle H. apply cooldown_over. apply cooldown_over in H.
  destruct ref as [t|]; [|exact I]. destruct H; [left; assumption | right; lia].
Qed.

Lemma qualifies_iff now st :
  qualifies now st = true <->
  (5 <= List.length (Tracker.focusScoreHistory st))%nat
  /\ Spec.roundedMean (Tracker.focusScoreHistory st) < 40
  /\ Tracker.isOnCooldown (Tracker.lastSuggestionTimeRef st) now = false.
Proof.
  unfold qualifies, Tracker.FOCUS_HISTORY_SIZE, Tracker.LOW_FOCUS_THRESHOLD.
  rewrite !andb_true_iff, Nat.leb_le, Z.ltb_lt, negb_true_iff.
  assert (Hmean : (5 <= List.length (Tracker.focusScoreHistory st))%nat ->
                  Tracker.average (Tracker.focusScoreHistory st)
                  = Spec.roundedMean (Tracker.focusScoreHistory st)).
  { intros Hlen. apply average_roundedMean. intros Hnil.
    rewrite Hnil in Hlen. cbn in Hlen. lia. }
  split.
  - intros [[Hlen Havg] Hcd]. rewrite <- Hmean by exact Hlen. auto.
  - intros (Hlen & Havg & Hcd). rewrite Hmean by exact Hlen. auto.
Qed.

Lemma transitionFires_qualifies now cb st :
  transitionFires now cb st <->
  Tracker.showContentSuggestionModal st = false /\ qualifies now st = true.
Proof.
  unfold transitionFires. rewrite averageEffect_modal.
  split; intros [Hclosed H]; (split; [exact Hclosed|]);
    rewrite Hclosed in *; exact H.
Qed.

(** C1, as the code has it: on a run of the averaging effect the dialog
    goes from closed to open if and only if the history holds at least 5
    entries, their rounded mean is strictly below 40, the dialog is not
    already open, and no cooldown is running: [lastSuggestionTimeRef] is
    unset (or holds the falsy timestamp 0), or at least 60000 ms have
    elapsed since it (60000 ms exactly is enough). *)
Theorem suggestion_fires_iff (now : Z) (cb : option nat) (st : Tracker.State) :
  transitionFires now cb st <->
  (5 <= List.length (Tracker.focusScoreHistory st))%nat
  /\ Spec.roundedMean (Tracker.focusScoreHistory st) < 40
  /\ match Tracker.lastSuggestionTimeRef st with
     | None => True
     | Some t => t = 0 \/ now - t >= 60000
     end
  /\ Tracker.showContentSuggestionModal st = false.
Proof.
  rewrite transitionFires_qualifies, qualifies_iff, <- cooldown_over.
  tauto.
Qed.

(** C1 as the specification states it fails at the boundary: after a
    dismissal at time 1000, a run of the effect at time 61000 (exactly
    60000 ms later) over the history [10,10,10,10,10] opens the dialog,
    although the elapsed time does not exceed 60000 ms. *)
Lemma suggestion_fires_at_cooldown_boundary :
  let st := fst (fst (Tracker.onFocusScoreUpdate (Some (inject_Z 10))
                        afterDismissal)) in
  transitionFires 61000 (Some 0%nat) st
  /\ ~ Spec.suggestionCondition (Tracker.focusScoreHistory st)
         (Tracker.lastSuggestionTimeRef st) 61000
         (Tracker.showContentSuggestionModal st).
Proof.
  cbn zeta. split.
  - split; vm_compute; reflexivity.
  - intros (_ & _ & Hcd & _).
    destruct Hcd as [Hnone | (t & Ht & Hgt)].
    + vm_compute in Hnone. discriminate.
    + vm_compute in Ht. injection Ht as <-. lia.
Qed.

(** No suggestion before five readings, however low they are. *)
Lemma no_suggestion_before_five now cb st :
  (List.length (Tracker.focusScoreHistory st) < 5)%nat ->
  ~ transitionFires now cb st.
Proof.
  intros Hlt Hf. apply transitionFires_qualifies in Hf.
  destruct Hf as [_ Hq]. apply qualifies_iff in Hq. lia.
Qed.

(** ** The format classifier *)

(** The chain of [updateContentType] computes the threshold table. *)
Lemma newTypeFor_formatOf (signal : Z) :
  Dashboard.newTypeFor signal = Spec.formatOf signal.
Proof.
  unfold Dashboard.newTypeFor, Spec.formatOf, Spec.inBand.
  rewrite !Z.gtb_ltb.
  destruct (Z.ltb_spec 80 signal); [reflexivity|].
  destruct (Z.ltb_spec 60 signal), (Z.leb_spec 61 signal),
    (Z.leb_spec signal 80); cbn; try lia; try reflexivity.
  destruct (Z.ltb_spec 40 signal), (Z.leb_spec 41 signal),
    (Z.leb_spec signal 60); cbn; try lia; try reflexivity.
  destruct (Z.ltb_spec 20 signal), (Z.leb_spec 21 signal),
    (Z.leb_spec signal 40); cbn; try lia; reflexivity.
Qed.

(** The chain of [fetchContent] picks the same format, and the payload of
    that format's section. *)
Lemma assignTypeAndData_section (focusScore : Z) (body : Api.Result) :
  Dashboard.assignTypeAndData focusScore body
  = match Spec.sectionOf (Dashboard.newTypeFor focusScore) body with
    | None => inl Dashboard.TypeError
    | Some v =>
        inr {| Dashboard.focusScore := focusScore;
               Dashboard.type := Dashboard.newTypeFor focusScore;
               Dashboard.data := JS.or_else v (Api.data body);
               Dashboard.timestamp := None |}
    end.
Proof.
  unfold Dashboard.assignTypeAndData, Dashboard.newTypeFor,
    Dashboard.sectionData.
  destruct (focusScore >? 80); [cbn; destruct (Api.text body); reflexivity|].
  destruct (focusScore >? 60);
    [cbn; destruct (Api.flipcard body); reflexivity|].
  destruct (focusScore >? 40); [cbn; destruct (Api.tiktok body); reflexivity|].
  destruct (focusScore >? 20); [cbn; destruct (Api.quiz body); reflexivity|].
  cbn; destruct (Api.mini body); reflexivity.
Qed.

(** C2: on the integers 0-100 both classification chains (the one of
    [updateContentType] and the one of [fetchContent]) follow the
    threshold table with strict upper-exclusive boundaries: above 80 text,
    61-80 flipcard, 41-60 tiktok, 21-40 quiz, 0-20 react; so 80, 60, 40 and
    20 fall into the lower band.  [fetchContent] stores content of that
    same format whenever the body carries the format's section. *)
Theorem classification_bands (signal : Z) :
  0 <= signal <= 100 ->
  (80 < signal -> Dashboard.newTypeFor signal = "text"%string)
  /\ (61 <= signal <= 80 -> Dashboard.newTypeFor signal = "flipcard"%string)
  /\ (41 <= signal <= 60 -> Dashboard.newTypeFor signal = "tiktok"%string)
  /\ (21 <= signal <= 40 -> Dashboard.newTypeFor signal = "quiz"%string)
  /\ (0 <= signal <= 20 -> Dashboard.newTypeFor signal = "react"%string)
  /\ (forall body v,
        Spec.sectionOf (Dashboard.newTypeFor signal) body = Some v ->
        exists content,
          Dashboard.assignTypeAndData signal body = inr content
          /\ Dashboard.type content = Dashboard.newTypeFor signal).
Proof.
  intros Hrange.
  pose proof (newTypeFor_formatOf signal) as Htable.
  unfold Spec.formatOf, Spec.inBand in Htable.
  split; [|split; [|split; [|split; [|split]]]].
  1-5: intros Hband; rewrite Htable;
    repeat match goal with
           | |- context [?a <? ?b] => destruct (Z.ltb_spec a b)
           | |- context [?a <=? ?b] => destruct (Z.leb_spec a b)
           end; cbn; try lia; reflexivity.
  intros body v Hsec.
  rewrite assignTypeAndData_section, Hsec.
  eexists. split; reflexivity.
Qed.

(** The edge values of the table. *)
Lemma classification_bands_edges :
  Dashboard.newTypeFor 81 = "text"%string
  /\ Dashboard.newTypeFor 80 = "flipcard"%string
  /\ Dashboard.newTypeFor 60 = "tiktok"%string
  /\ Dashboard.newTypeFor 40 = "quiz"%string
  /\ Dashboard.newTypeFor 20 = "react"%string
  /\ (exists content,
        Dashboard.assignTypeAndData 80 sampleBody = inr content
        /\ Dashboard.type content = Dashboard.newTypeFor 80).
Proof.
  split; [apply (classification_bands 81); lia|].
  split; [apply (classification_bands 80); lia|].
  split; [apply (classification_bands 60); lia|].
  split; [apply (classification_bands 40); lia|].
  split; [apply (classification_bands 20); lia|].
  apply (classification_bands 80) with (v := Some "cards"%string);
    [lia | reflexivity].
Defined.

(** ** The signal smoother *)

Lemma step_sample_tracker st d now focusScore :
  fst (System.step (st, d) (System.Sample now focusScore))
  = fst (Tracker.onSample now (System.callback d) focusScore st).
Proof.
  cbn [System.step].
  destruct (Tracker.onSample now (System.callback d) focusScore st).
  reflexivity.
Qed.

Lemma smoothed_initial : smoothed [] Tracker.initial.
Proof. repeat split. intros H. congruence. Qed.

Lemma smoothed_sample seen st now cb x :
  smoothed seen st ->
  smoothed (seen ++ [x])
    (fst (Tracker.onSample now cb (Some (inject_Z x)) st)).
Proof.
  intros (Hrec & Hh & _).
  pose proof (onSample_numeric now cb (inject_Z x) st Hrec) as H.
  cbn zeta in H. destruct H as (Hh' & _ & Ha' & _ & Hrec' & _).
  rewrite Math_round_integer, pushHistory_mostRecent, Hh in Hh', Ha'.
  change Tracker.FOCUS_HISTORY_SIZE with 5%nat in Hh', Ha'.
  rewrite mostRecent_snoc in Hh', Ha'.
  repeat split; try assumption.
  intros _. rewrite Ha'. apply average_roundedMean.
  apply mostRecent_snoc_nonempty.
Qed.

Lemma smoothed_run samples :
  forall seen st d,
    smoothed seen st ->
    smoothed (seen ++ map snd samples)
      (fst (System.run (sampleEvents samples) (st, d))).
Proof.
  induction samples as [|[now x] samples IH]; intros seen st d Hs.
  - cbn. rewrite app_nil_r. exact Hs.
  - cbn [sampleEvents map System.run fold_left fst snd].
    pose proof (step_sample_tracker st d now (Some (inject_Z x))) as Hstep.
    destruct (System.step (st, d) (System.Sample now (Some (inject_Z x))))
      as [st1 d1].
    cbn [fst] in Hstep. subst st1.
    replace (seen ++ x :: map snd samples)
      with ((seen ++ [x]) ++ map snd samples)
      by (rewrite <- app_assoc; reflexivity).
    apply (IH (seen ++ [x]) _ d1).
    apply smoothed_sample. exact Hs.
Qed.

Lemma mostRecent_min {A : Type} (l : list A) :
  Spec.mostRecent (Nat.min (List.length l) 5) l = Spec.mostRecent 5 l.
Proof.
  destruct (Nat.le_gt_cases (List.length l) 5) as [Hle|Hgt].
  - rewrite Nat.min_l by exact Hle.
    rewrite !mostRecent_short by lia. reflexivity.
  - rewrite Nat.min_r by lia. reflexivity.
Qed.

(** C3: after each sample of a sequence of integer samples fed to a fresh
    tracker, the smoothed signal ([averageFocusScore]) is the rounded mean
    of the most recent min(length, 5) samples, and the window holds exactly
    those samples in arrival order (the oldest evicted first). *)
Theorem smoothed_signal_is_windowed_mean
    (earlier : list (Z * Z)) (latest : Z * Z) (d : Dashboard.State) :
  let samples := map snd (earlier ++ [latest]) in
  let st := fst (System.run (sampleEvents (earlier ++ [latest]))
                   (Tracker.initial, d)) in
  Tracker.averageFocusScore st
  = Spec.roundedMean (Spec.mostRecent (Nat.min (List.length samples) 5) samples)
  /\ Tracker.focusScoreHistory st
     = Spec.mostRecent (Nat.min (List.length samples) 5) samples.
Proof.
  cbn zeta. rewrite mostRecent_min.
  pose proof (smoothed_run (earlier ++ [latest]) [] Tracker.initial d
                smoothed_initial) as (_ & Hh & Ha).
  cbn [app] in Hh, Ha. split; [|exact Hh].
  apply Ha. rewrite map_app. cbn. intros H.
  apply (f_equal (@List.length Z)) in H. rewrite length_app in H.
  cbn in H. lia.
Qed.

(** With at most five samples the window is all of them: no padding. *)
Lemma window_of_few (samples : list Z) :
  (List.length samples <= 5)%nat ->
  Spec.mostRecent (Nat.min (List.length samples) 5) samples = samples.
Proof. intros H. rewrite mostRecent_min. apply mostRecent_short. exact H. Qed.

(** With more than five the window is the last five: whatever came before
    does not matter. *)
Lemma window_of_many (older older' last5 : list Z) :
  List.length last5 = 5%nat ->
  Spec.mostRecent 5 (older ++ last5) = Spec.mostRecent 5 (older' ++ last5).
Proof.
  intros H. unfold Spec.mostRecent.
  rewrite !rev_app_distr, !firstn_app, !length_rev, H, Nat.sub_diag.
  cbn [firstn]. reflexivity.
Qed.

Example smoothing_scenario :
  let st := fst (System.run
                   (sampleEvents [(0, 90); (1, 85); (2, 88); (3, 92); (4, 91);
                                  (5, 15)])
                   (Tracker.initial, Dashboard.initial)) in
  Tracker.focusScoreHistory st = [85; 88; 92; 91; 15]
  /\ Tracker.averageFocusScore st = 74.
Proof. vm_compute. split; reflexivity. Qed.

(** ** Malformed samples *)

(** C7, as the code has it: the listener rejects only a sample whose
    [focusScore] is [undefined]: an error is logged, no state changes (the
    window and the smoothed signal are as before) and nothing is notified.
    Any numeric [focusScore], integral or not and in [0, 100] or not, is
    rounded with [Math.round] and enters the window as its newest entry. *)
Theorem only_undefined_is_rejected
    (now : Z) (cb : option nat) (st : Tracker.State) :
  Tracker.onSample now cb None st = (st, [Tracker.ConsoleError])
  /\ forall q : Q,
       Tracker.focusScoreHistory (fst (Tracker.onSample now cb (Some q) st))
       = Spec.mostRecent 5 (Tracker.focusScoreHistory st ++ [JS.Math_round q]).
Proof.
  split.
  - apply onSample_undefined.
  - intros q. rewrite onSample_history. apply pushHistory_mostRecent.
Qed.

(** C7 as the specification states it fails: the out-of-range sample 150
    and the non-integer sample 3.7 are both malformed, yet each enters the
    window of a fresh tracker (3.7 as 4) and becomes the smoothed signal. *)
Lemma malformed_samples_enter_window :
  let before := Tracker.initial in
  let after150 :=
    fst (Tracker.onSample 0 (Some 0%nat) (Some (150 # 1)) before) in
  let after37 :=
    fst (Tracker.onSample 0 (Some 0%nat) (Some (37 # 10)) before) in
  Spec.malformed (Some (150 # 1)) = true
  /\ Tracker.focusScoreHistory after150 <> Tracker.focusScoreHistory before
  /\ Tracker.averageFocusScore after150 <> Tracker.averageFocusScore before
  /\ Spec.malformed (Some (37 # 10)) = true
  /\ Tracker.focusScoreHistory after37 <> Tracker.focusScoreHistory before
  /\ Tracker.focusScoreHistory after150 = [150]
  /\ Tracker.focusScoreHistory after37 = [4].
Proof.
  vm_compute. repeat split; try reflexivity; discriminate.
Qed.

(** ** Notifications *)

Lemma notifications_app (a b : list Tracker.Output) :
  Tracker.notifications (a ++ b)
  = Tracker.notifications a ++ Tracker.notifications b.
Proof.
  induction a as [|[|n] a IH]; cbn; [reflexivity | exact IH |].
  rewrite IH. reflexivity.
Qed.

(** Frame of rendering: the history, the array identity and the cooldown
    reference are untouched, and the recorded dependencies stay behind. *)
Lemma commit_frame fuel now cb :
  forall st,
    let st' := fst (Tracker.commit fuel now cb st) in
    Tracker.focusScoreHistory st' = Tracker.focusScoreHistory st
    /\ Tracker.historyId st' = Tracker.historyId st
    /\ Tracker.lastSuggestionTimeRef st' = Tracker.lastSuggestionTimeRef st
    /\ (recorded st -> recorded st').
Proof.
  induction fuel as [|fuel IH]; intros st; cbn [Tracker.commit].
  - cbn. auto.
  - destruct (Tracker.depsChanged cb st); [|cbn; auto].
    set (st0 := Tracker.setEffectDeps (Tracker.currentDeps cb st) st).
    pose proof (averageEffect_frame now cb st0) as (Fh & Fi & Fr & Fd & _).
    destruct (Tracker.averageEffect now cb st0) as [st1 out1].
    specialize (IH st1). cbn zeta in IH.
    destruct (Tracker.commit fuel now cb st1) as [st2 out2].
    cbn [fst] in *. destruct IH as (Gh & Gi & Gr & Grec).
    rewrite Gh, Gi, Gr, Fh, Fi, Fr. repeat split.
    intros _. apply Grec. unfold recorded. rewrite Fd, Fi. cbn. lia.
Qed.

(** Every notification sent while rendering is an ambient one. *)
Lemma commit_ambient fuel now cb :
  forall st n,
    In n (Tracker.notifications (snd (Tracker.commit fuel now cb st))) ->
    AttentionData.shouldSwitchContent n = false.
Proof.
  induction fuel as [|fuel IH]; intros st n; cbn [Tracker.commit].
  - intros [].
  - destruct (Tracker.depsChanged cb st); [|intros []].
    set (st0 := Tracker.setEffectDeps (Tracker.currentDeps cb st) st).
    pose proof (averageEffect_ambient now cb st0 n) as Hfirst.
    destruct (Tracker.averageEffect now cb st0) as [st1 out1].
    specialize (IH st1 n).
    destruct (Tracker.commit fuel now cb st1) as [st2 out2].
    cbn [snd] in *. rewrite notifications_app, in_app_iff.
    intros [H|H]; auto.
Qed.

Lemma onSample_ambient now cb focusScore st n :
  In n (Tracker.notifications
          (snd (Tracker.onSample now cb focusScore st))) ->
  AttentionData.shouldSwitchContent n = false.
Proof.
  destruct focusScore as [q|]; [|intros []].
  unfold Tracker.onSample.
  set (st1 := fst (fst (Tracker.onFocusScoreUpdate (Some q) st))).
  change (Tracker.onFocusScoreUpdate (Some q) st)
    with (st1, @nil Tracker.Output, true).
  cbn iota.
  pose proof (commit_ambient Tracker.RENDER_FUEL now cb st1 n) as H.
  destruct (Tracker.commit Tracker.RENDER_FUEL now cb st1) as [st2 out2].
  exact H.
Qed.

(** Closing the dialog is a change of the effect's dependencies. *)
Lemma close_changes_deps cb st :
  Tracker.effectDeps st = Some (Tracker.currentDeps cb st) ->
  Tracker.showContentSuggestionModal st = true ->
  Tracker.depsChanged cb (Tracker.onOpenChange false st) = true.
Proof.
  intros Hd Hm.
  rewrite (depsChanged_after_run cb st (Tracker.onOpenChange false st) Hd eq_refl).
  rewrite Hm. reflexivity.
Qed.

(** C8, as the code has it: every run of the averaging effect sends one
    notification, always with [shouldSwitchContent = false] and the current
    average.  A numeric sample causes one run, and a second one exactly
    when the first opened the dialog (the modal flag is a dependency of the
    effect): one or two notifications.  A sample with an undefined
    [focusScore] sends none.  A change of the modal flag alone also re-runs
    the effect: closing the open dialog sends at least one notification
    although no sample arrived. *)
Theorem notifications_per_event
    (now : Z) (cb : nat) (q : Q) (st : Tracker.State) :
  recorded st ->
  let r := Tracker.onSample now (Some cb) (Some q) st in
  let opened := negb (Tracker.showContentSuggestionModal st)
                && Tracker.showContentSuggestionModal (fst r) in
  Tracker.notifications (snd r)
  = repeat (ambient (Tracker.averageFocusScore (fst r)))
           (if opened then 2 else 1)
  /\ Tracker.notifications (snd (Tracker.onSample now (Some cb) None st)) = []
  /\ (Tracker.effectDeps st = Some (Tracker.currentDeps (Some cb) st) ->
      Tracker.showContentSuggestionModal st = true ->
      Tracker.focusScoreHistory st <> [] ->
      (1 <= List.length
              (Tracker.notifications (snd (Tracker.onClose now (Some cb) st)))
       )%nat).
Proof.
  intros Hrec. cbn zeta.
  pose proof (onSample_numeric now (Some cb) q st Hrec) as H.
  cbn zeta in H. destruct H as (_ & _ & Ha & Hm & _ & Hn).
  split; [|split].
  - rewrite Hn, Ha, Hm.
    destruct (Tracker.showContentSuggestionModal st); reflexivity.
  - reflexivity.
  - intros Hd Hopen Hne. unfold Tracker.onClose.
    pose proof (commit_changed 2 now (Some cb) (Tracker.onOpenChange false st)
                  (close_changes_deps _ _ Hd Hopen) Hne) as Hc.
    cbn zeta in Hc. destruct Hc as (_ & _ & _ & _ & _ & _ & Hout).
    change (Tracker.commit 4) with (Tracker.commit Tracker.RENDER_FUEL) in Hout.
    rewrite Hout, repeat_length.
    match goal with
    | |- context [if ?c then _ else _] => destruct c
    end; lia.
Qed.

(** The fifth low sample, which opens the dialog: two notifications for
    one sample. *)
Lemma notifications_per_event_fifth_sample :
  recorded afterFourLow
  /\ Tracker.notifications
       (snd (Tracker.onSample 4 (Some 1%nat) (Some (inject_Z 10)) afterFourLow))
     = [ambient 10; ambient 10].
Proof.
  assert (Hrec : recorded afterFourLow) by (vm_compute; lia).
  split; [exact Hrec|].
  exact (proj1 (notifications_per_event 4 1 (inject_Z 10) afterFourLow Hrec)).
Defined.

(** C8 as the specification states it fails: the fifth low sample alone
    produces two notifications, and closing the dialog (no sample at all)
    produces further ones. *)
Lemma more_than_one_notification :
  ~ (List.length
       (Tracker.notifications
          (snd (Tracker.onSample 4 (System.callback readingDashboard)
                  (Some (inject_Z 10)) afterFourLow))) <= 1)%nat
  /\ Tracker.notifications
       (snd (Tracker.onClose 5 (System.callback readingDashboard) afterFiveLow))
     <> [].
Proof.
  split.
  - vm_compute. lia.
  - vm_compute. discriminate.
Qed.

(** ** The content-switch controller and ambient updates *)

(** An ambient notification only replaces [attentionData]. *)
Lemma deliver_ambient now d a :
  AttentionData.shouldSwitchContent a = false ->
  Dashboard.deliver now d a = Dashboard.setAttentionData a d.
Proof.
  intros Ha. unfold Dashboard.deliver, Dashboard.handleAttentionChange.
  rewrite Ha.
  assert (Heff : Dashboard.attentionEffect now (Dashboard.setAttentionData a d)
                 = Dashboard.setAttentionData a d).
  { unfold Dashboard.attentionEffect. cbn. rewrite Ha.
    destruct (Dashboard.currentData d); reflexivity. }
  destruct (Dashboard.currentData d); exact Heff.
Qed.

Lemma deliver_all_ambient now (ns : list AttentionData.t) :
  forall d,
    (forall n, In n ns -> AttentionData.shouldSwitchContent n = false) ->
    let d' := fold_left (Dashboard.deliver now) ns d in
    Dashboard.currentData d' = Dashboard.currentData d
    /\ Dashboard.currentDataId d' = Dashboard.currentDataId d
    /\ Dashboard.requests d' = Dashboard.requests d.
Proof.
  induction ns as [|n ns IH]; intros d Hall; cbn.
  - auto.
  - rewrite deliver_ambient by (apply Hall; left; reflexivity).
    destruct (IH (Dashboard.setAttentionData n d)) as (Hc & Hi & Hr).
    { intros m Hm. apply Hall. right. exact Hm. }
    cbn zeta in Hc, Hi, Hr. rewrite Hc, Hi, Hr. repeat split.
Qed.

(** An event that is not a confirmation leaves the content alone. *)
Lemma step_without_confirm s e :
  System.isConfirm e = false ->
  Dashboard.currentData (snd (System.step s e)) = Dashboard.currentData (snd s)
  /\ Dashboard.requests (snd (System.step s e)) = Dashboard.requests (snd s).
Proof.
  destruct s as [st d]. intros He.
  destruct e as [now focusScore|now|now|now]; [|discriminate| |];
    cbn [System.step snd].
  - pose proof (onSample_ambient now (System.callback d) focusScore st) as Ha.
    destruct (Tracker.onSample now (System.callback d) focusScore st)
      as [st1 out].
    cbn [snd] in *.
    destruct (deliver_all_ambient now (Tracker.notifications out) d Ha)
      as (Hc & _ & Hr).
    split; assumption.
  - pose proof (commit_ambient Tracker.RENDER_FUEL now (System.callback d)
                  (Tracker.handleDismissSuggestion now st)) as Ha.
    destruct (Tracker.commit Tracker.RENDER_FUEL now (System.callback d)
                (Tracker.handleDismissSuggestion now st)) as [st1 out].
    cbn [snd] in *.
    destruct (deliver_all_ambient now (Tracker.notifications out) d Ha)
      as (Hc & _ & Hr).
    split; assumption.
  - unfold Tracker.onClose.
    pose proof (commit_ambient Tracker.RENDER_FUEL now (System.callback d)
                  (Tracker.onOpenChange false st)) as Ha.
    destruct (Tracker.commit Tracker.RENDER_FUEL now (System.callback d)
                (Tracker.onOpenChange false st)) as [st1 out].
    cbn [snd] in *.
    destruct (deliver_all_ambient now (Tracker.notifications out) d Ha)
      as (Hc & _ & Hr).
    split; assumption.
Qed.

Lemma run_without_confirm events :
  forall s,
    noConfirm events = true ->
    Dashboard.currentData (snd (System.run events s))
    = Dashboard.currentData (snd s).
Proof.
  induction events as [|e events IH]; intros s Hno; cbn.
  - reflexivity.
  - cbn in Hno. apply andb_true_iff in Hno. destruct Hno as [He Hrest].
    apply negb_true_iff in He.
    unfold System.run in IH. rewrite IH by exact Hrest.
    apply step_without_confirm. exact He.
Qed.

(** C4: over any sequence of events without a viewer confirmation (samples,
    dismissals, closings of the dialog) the content state, and so the
    active format, never changes; every notification produced by a sample
    carries [shouldSwitchContent = false]; and the controller changes the
    format only on a notification that carries [shouldSwitchContent =
    true]. *)
Theorem ambient_updates_never_switch
    (events : list System.Event) (s : System.State) :
  noConfirm events = true ->
  Dashboard.currentData (snd (System.run events s))
  = Dashboard.currentData (snd s)
  /\ (forall now cb focusScore st n,
        In n (Tracker.notifications
                (snd (Tracker.onSample now cb focusScore st))) ->
        AttentionData.shouldSwitchContent n = false)
  /\ (forall now d a,
        Dashboard.format (Dashboard.deliver now d a) <> Dashboard.format d ->
        AttentionData.shouldSwitchContent a = true).
Proof.
  intros Hno. split; [|split].
  - apply run_without_confirm. exact Hno.
  - intros now cb focusScore st n. apply onSample_ambient.
  - intros now d a Hchg.
    destruct (AttentionData.shouldSwitchContent a) eqn:Ha; [reflexivity|].
    exfalso. apply Hchg. rewrite deliver_ambient by exact Ha. reflexivity.
Qed.

(** A session of five low samples and a dismissal: the text content
    fetched at level 89 is still there. *)
Lemma ambient_updates_never_switch_low_session :
  noConfirm (sampleEvents (lowSamples 5) ++ [System.Dismiss 1000]) = true
  /\ Dashboard.currentData
       (snd (System.run (sampleEvents (lowSamples 5) ++ [System.Dismiss 1000])
               (Tracker.initial, readingDashboard)))
     = Dashboard.currentData readingDashboard.
Proof.
  assert (Hno : noConfirm (sampleEvents (lowSamples 5) ++ [System.Dismiss 1000])
                = true) by reflexivity.
  split; [exact Hno|].
  exact (proj1 (ambient_updates_never_switch _
                  (Tracker.initial, readingDashboard) Hno)).
Defined.

(** ** Confirmed switches *)

Lemma updateContentType_same_format now level d c :
  Dashboard.currentData d = Some c ->
  Dashboard.newTypeFor level = Dashboard.type c ->
  Dashboard.updateContentType now level d = d.
Proof.
  intros Hc Hsame. unfold Dashboard.updateContentType.
  rewrite Hc, Hsame, String.eqb_refl. reflexivity.
Qed.

(** [updateContentType] never fetches and never touches the payload. *)
Lemma updateContentType_keeps_payload now level d c :
  Dashboard.currentData d = Some c ->
  exists c',
    Dashboard.currentData (Dashboard.updateContentType now level d) = Some c'
    /\ Dashboard.data c' = Dashboard.data c
    /\ Dashboard.requests (Dashboard.updateContentType now level d)
       = Dashboard.requests d.
Proof.
  intros Hc. unfold Dashboard.updateContentType. rewrite Hc.
  destruct (negb _).
  - eexists. cbn. repeat split.
  - exists c. rewrite Hc. repeat split.
Qed.

Lemma deliver_confirm_same_format now level d c :
  Dashboard.currentData d = Some c ->
  Dashboard.newTypeFor level = Dashboard.type c ->
  Dashboard.deliver now d
    {| AttentionData.attentionLevel := level;
       AttentionData.shouldSwitchContent := true |}
  = Dashboard.setAttentionData
      {| AttentionData.attentionLevel := level;
         AttentionData.shouldSwitchContent := true |} d.
Proof.
  intros Hc Hsame.
  unfold Dashboard.deliver, Dashboard.handleAttentionChange.
  rewrite Hc. cbn [AttentionData.shouldSwitchContent
                   AttentionData.attentionLevel].
  rewrite (updateContentType_same_format now level _ c) by assumption.
  unfold Dashboard.attentionEffect.
  cbn [Dashboard.currentData Dashboard.setAttentionData
       Dashboard.attentionData AttentionData.shouldSwitchContent
       AttentionData.attentionLevel].
  rewrite Hc.
  apply (updateContentType_same_format now level _ c); assumption.
Qed.

(** The confirmation step spelled out: the switching notification is
    delivered first, then the tracker renders with the dialog closed. *)
Lemma step_confirm st d now :
  System.step (st, d) (System.Confirm now)
  = let d1 := Dashboard.deliver now d
                {| AttentionData.attentionLevel := Tracker.averageFocusScore st;
                   AttentionData.shouldSwitchContent := true |} in
    let r := Tracker.commit Tracker.RENDER_FUEL now (System.callback d1)
               (Tracker.handleDismissSuggestion now st) in
    (fst r, Dashboard.deliverAll now (snd r) d1).
Proof.
  cbn [System.step]. unfold Tracker.handleContentChange, System.callback.
  cbn zeta.
  change (Dashboard.deliverAll now [Tracker.AttentionChanged ?a] d)
    with (Dashboard.deliver now d a).
  unfold Tracker.handleDismissSuggestion.
  destruct (Tracker.commit _ _ _ _). reflexivity.
Qed.

(** C6: a confirmed switch whose signal classifies to the active format is
    a no-op: [updateContentType] returns the state it was given (same type,
    payload, focus score and timestamp, no request issued), and the whole
    confirmation, from the "Switch Content" button to the renders that
    follow, leaves the content state and the number of requests as they
    were. *)
Theorem same_format_switch_is_noop
    (now level : Z) (d : Dashboard.State) (c : Dashboard.ContentData) :
  Dashboard.currentData d = Some c ->
  Dashboard.newTypeFor level = Dashboard.type c ->
  Dashboard.updateContentType now level d = d
  /\ forall st,
       Tracker.averageFocusScore st = level ->
       let s' := System.step (st, d) (System.Confirm now) in
       Dashboard.currentData (snd s') = Some c
       /\ Dashboard.currentDataId (snd s') = Dashboard.currentDataId d
       /\ Dashboard.requests (snd s') = Dashboard.requests d.
Proof.
  intros Hc Hsame. split.
  - apply (updateContentType_same_format now level d c); assumption.
  - intros st Hlevel. cbn zeta. rewrite step_confirm. cbn zeta.
    rewrite Hlevel, (deliver_confirm_same_format now level d c) by assumption.
    set (d1 := Dashboard.setAttentionData _ d).
    pose proof (commit_ambient Tracker.RENDER_FUEL now (System.callback d1)
                  (Tracker.handleDismissSuggestion now st)) as Ha.
    destruct (Tracker.commit Tracker.RENDER_FUEL now (System.callback d1)
                (Tracker.handleDismissSuggestion now st)) as [st2 out2].
    cbn [fst snd] in *.
    destruct (deliver_all_ambient now (Tracker.notifications out2) d1 Ha)
      as (Hcur & Hid & Hreq).
    unfold Dashboard.deliverAll. rewrite Hcur, Hid, Hreq.
    repeat split. exact Hc.
Qed.

(** The text content with a confirmed average of 95, which is text
    again. *)
Lemma same_format_switch_is_noop_text :
  Dashboard.updateContentType 2000 95 readingDashboard = readingDashboard.
Proof.
  refine (proj1 (same_format_switch_is_noop 2000 95 readingDashboard
                   {| Dashboard.focusScore := 89; Dashboard.type := "text";
                      Dashboard.data := Some "plain text"%string;
                      Dashboard.timestamp := None |} _ _));
    reflexivity.
Defined.

(** C5 fails on the code: a confirmed switch of the text content at an
    average of 15 changes the format to react, issues no request and keeps
    the text payload, while the payload the body supplies for react is
    another one. *)
Lemma switch_keeps_old_payload :
  let d := Dashboard.deliver 2000 readingDashboard
             {| AttentionData.attentionLevel := 15;
                AttentionData.shouldSwitchContent := true |} in
  Dashboard.currentData d
  = Some {| Dashboard.focusScore := 15; Dashboard.type := "react";
            Dashboard.data := Some "plain text"%string;
            Dashboard.timestamp := Some 2000 |}
  /\ Dashboard.requests d = Dashboard.requests readingDashboard
  /\ Spec.payloadFor "react" sampleBody = Some (Some "mini app"%string)
  /\ Spec.payloadFor "text" sampleBody = Some (Some "plain text"%string).
Proof. vm_compute. repeat split; reflexivity. Qed.

(** ** Failed fetches *)

Lemma fetchFails_throws focusScore response :
  Spec.fetchFails focusScore response <->
  exists e, Dashboard.tryBlock focusScore response = inl e.
Proof.
  split.
  - intros H. destruct H as [|body| |body Hmiss]; cbn; eauto.
    rewrite assignTypeAndData_section, newTypeFor_formatOf, Hmiss. eauto.
  - intros [e He]. destruct response as [|[|] [body|]]; try constructor.
    cbn in He.
    rewrite assignTypeAndData_section, newTypeFor_formatOf in He.
    destruct (Spec.sectionOf (Spec.formatOf focusScore) body) eqn:Hsec;
      [discriminate | reflexivity].
Qed.

(** The whole of [fetchContent], run without interleaving, on a failure. *)
Lemma failed_fetchContent_leaves_content response d :
  Spec.fetchFails (AttentionData.attentionLevel (Dashboard.attentionData d))
    response ->
  Dashboard.currentData (Dashboard.fetchContent response d)
  = Dashboard.currentData d.
Proof.
  intros Hfail. unfold Dashboard.fetchContent, Dashboard.fetchContent_start.
  destruct (Dashboard.selectedFile d); [|reflexivity].
  apply fetchFails_throws in Hfail. destruct Hfail as [e He].
  unfold Dashboard.fetchContent_finish. cbn. rewrite He. reflexivity.
Qed.

(** ** Closing the dialog without a decision *)

(** C9: when the payload fetch fails (network error, response not OK, body
    that is not JSON or that lacks the section of the chosen format), the
    whole call of [fetchContent] changes nothing of the content: the state
    it leaves differs from the one it found only in the loading flag and
    the count of requests, [currentData] is the very object it was, and
    this also holds when the response arrives in a later state of the
    component. *)
Theorem failed_fetch_leaves_content
    (response : Api.Response) (d : Dashboard.State) :
  Spec.fetchFails (AttentionData.attentionLevel (Dashboard.attentionData d))
    response ->
  Dashboard.fetchContent response d
  = match Dashboard.selectedFile d with
    | None => d
    | Some _ =>
        Dashboard.setIsLoading false
          (Dashboard.postRequest (Dashboard.setIsLoading true d))
    end
  /\ Dashboard.currentData (Dashboard.fetchContent response d)
     = Dashboard.currentData d
  /\ Dashboard.currentDataId (Dashboard.fetchContent response d)
     = Dashboard.currentDataId d
  /\ (forall arrival : Dashboard.State,
        Dashboard.fetchContent_finish
          (AttentionData.attentionLevel (Dashboard.attentionData d))
          response arrival
        = Dashboard.setIsLoading false arrival).
Proof.
  intros Hfail.
  pose proof (failed_fetchContent_leaves_content response d Hfail) as Hwhole.
  apply fetchFails_throws in Hfail. destruct Hfail as [e He].
  assert (Hcall : Dashboard.fetchContent response d
                  = match Dashboard.selectedFile d with
                    | None => d
                    | Some _ =>
                        Dashboard.setIsLoading false
                          (Dashboard.postRequest
                             (Dashboard.setIsLoading true d))
                    end).
  { unfold Dashboard.fetchContent, Dashboard.fetchContent_start.
    destruct (Dashboard.selectedFile d); [|reflexivity].
    unfold Dashboard.fetchContent_finish. rewrite He. reflexivity. }
  split; [exact Hcall|]. split; [exact Hwhole|]. split.
  - rewrite Hcall. destruct (Dashboard.selectedFile d); reflexivity.
  - intros arrival. unfold Dashboard.fetchContent_finish. rewrite He.
    reflexivity.
Qed.

(** A response that is not OK to the fetch of [notes.pdf] while its text
    content is shown. *)
Lemma failed_fetch_leaves_content_not_ok :
  Dashboard.currentData
    (Dashboard.fetchContent (Api.Resolved false None) readingDashboard)
  = Dashboard.currentData readingDashboard.
Proof.
  exact (proj1 (proj2 (failed_fetch_leaves_content
                         (Api.Resolved false None) readingDashboard
                         (Spec.http_not_ok _ None)))).
Defined.

(** By contrast the Dismiss button starts the cooldown: a low sample less
    than 60000 ms after a dismissal does not open the dialog. *)
Lemma dismiss_starts_cooldown (dismissed next : Z) cb q st :
  recorded st ->
  dismissed <> 0 ->
  next - dismissed < 60000 ->
  let st1 := fst (Tracker.commit Tracker.RENDER_FUEL dismissed cb
                    (Tracker.handleDismissSuggestion dismissed st)) in
  Tracker.showContentSuggestionModal st1 = false ->
  Tracker.showContentSuggestionModal
    (fst (Tracker.onSample next cb (Some q) st1)) = false.
Proof.
  intros Hrec Hnz Hsoon. cbn zeta.
  pose proof (commit_frame Tracker.RENDER_FUEL dismissed cb
                (Tracker.handleDismissSuggestion dismissed st)) as Hf.
  cbn zeta in Hf. destruct Hf as (_ & _ & Hr1 & Hrec1).
  set (st1 := fst (Tracker.commit Tracker.RENDER_FUEL dismissed cb
                     (Tracker.handleDismissSuggestion dismissed st))) in *.
  intros Hclosed.
  pose proof (onSample_numeric next cb q st1 (Hrec1 Hrec)) as H.
  cbn zeta in H. destruct H as (_ & _ & _ & Hm & _).
  rewrite Hm, Hclosed. cbn [orb].
  destruct (qualifies next
              (fst (fst (Tracker.onFocusScoreUpdate (Some q) st1)))) eqn:Hq;
    [|reflexivity].
  apply qualifies_iff in Hq. destruct Hq as (_ & _ & Hcd).
  cbn [Tracker.onFocusScoreUpdate fst Tracker.lastSuggestionTimeRef] in Hcd.
  rewrite Hr1 in Hcd.
  cbn [Tracker.handleDismissSuggestion Tracker.setShowContentSuggestionModal
       Tracker.setLastSuggestionTime Tracker.lastSuggestionTimeRef] in Hcd.
  apply cooldown_over in Hcd. destruct Hcd; [contradiction | lia].
Qed.

(** With the history still low, the render that follows the closing
    re-opens the dialog at once: no further sample is needed. *)
Example close_reopens_at_once :
  Tracker.showContentSuggestionModal
    (Tracker.onOpenChange false afterFiveLow) = false
  /\ Tracker.showContentSuggestionModal
       (fst (Tracker.onClose 5 (System.callback readingDashboard)
               afterFiveLow)) = true.
Proof. vm_compute. split; reflexivity. Qed.

(** The end-to-end scenario of the specification: five high samples give
    89 and text; five low samples give 15 and open the dialog; the
    confirmation switches the format to react. *)
Example end_to_end_scenario :
  let high := sampleEvents [(0, 90); (1, 85); (2, 88); (3, 92); (4, 91)] in
  let low := sampleEvents [(5, 15); (6, 18); (7, 12); (8, 20); (9, 10)] in
  let s1 := System.run high (Tracker.initial, readingDashboard) in
  let s2 := System.run low s1 in
  let s3 := System.step s2 (System.Confirm 10) in
  Tracker.averageFocusScore (fst s1) = 89
  /\ Dashboard.newTypeFor 89 = "text"%string
  /\ Tracker.averageFocusScore (fst s2) = 15
  /\ Tracker.showContentSuggestionModal (fst s2) = true
  /\ Dashboard.format (snd s3) = Some "react"%string
  /\ Tracker.lastSuggestionTimeRef (fst s3) = Some 10.
Proof. vm_compute. repeat split; reflexivity. Qed.

(** * Further properties of the tracker *)

(** ** What rendering can and cannot change *)

Lemma commit_average fuel now cb :
  forall st,
    let st' := fst (Tracker.commit fuel now cb st) in
    Tracker.averageFocusScore st' = Tracker.averageFocusScore st
    \/ (Tracker.focusScoreHistory st <> []
        /\ Tracker.averageFocusScore st'
           = Tracker.average (Tracker.focusScoreHistory st)).
Proof.
  induction fuel as [|fuel IH]; intros st; cbn [Tracker.commit].
  - left. reflexivity.
  - destruct (Tracker.depsChanged cb st); [|left; reflexivity].
    set (st0 := Tracker.setEffectDeps (Tracker.currentDeps cb st) st).
    pose proof (averageEffect_frame now cb st0) as (Fh & _).
    pose proof (averageEffect_average now cb st0) as Fa.
    pose proof (averageEffect_empty now cb st0) as Fe.
    destruct (Tracker.averageEffect now cb st0) as [st1 out1] eqn:E.
    specialize (IH st1). cbn zeta in IH.
    destruct (Tracker.commit fuel now cb st1) as [st2 out2].
    cbn [fst] in *.
    change (Tracker.focusScoreHistory st0)
      with (Tracker.focusScoreHistory st) in *.
    destruct (Tracker.focusScoreHistory st) as [|x h] eqn:Hh.
    + assert (Hsame : Tracker.averageFocusScore st1
                      = Tracker.averageFocusScore st).
      { specialize (Fe eq_refl). injection Fe as Hst _. rewrite Hst.
        reflexivity. }
      destruct IH as [IH|[Hne _]]; [left; rewrite IH; exact Hsame|].
      rewrite Fh in Hne. congruence.
    + right. split; [discriminate|].
      assert (Hne : x :: h <> []) by discriminate.
      destruct IH as [IH|[_ IH]].
      * rewrite IH. apply Fa. exact Hne.
      * rewrite IH, Fh. reflexivity.
Qed.

Lemma commit_averaged fuel now cb st :
  averaged st -> averaged (fst (Tracker.commit fuel now cb st)).
Proof.
  intros Hav. unfold averaged.
  pose proof (commit_frame fuel now cb st) as (Fh & _).
  pose proof (commit_average fuel now cb st) as Ha. cbn zeta in Ha.
  rewrite Fh. intros Hne.
  destruct Ha as [Ha|[_ Ha]]; rewrite Ha; [apply Hav; exact Hne | reflexivity].
Qed.

(** Rendering never closes the dialog, and opens it only when the state
    qualifies. *)
Lemma commit_modal fuel now cb :
  forall st,
    let st' := fst (Tracker.commit fuel now cb st) in
    (Tracker.showContentSuggestionModal st = true ->
     Tracker.showContentSuggestionModal st' = true)
    /\ (Tracker.showContentSuggestionModal st' = true ->
        Tracker.showContentSuggestionModal st = true
        \/ qualifies now st = true).
Proof.
  induction fuel as [|fuel IH]; intros st; cbn [Tracker.commit].
  - cbn. auto.
  - destruct (Tracker.depsChanged cb st); [|cbn; auto].
    set (st0 := Tracker.setEffectDeps (Tracker.currentDeps cb st) st).
    pose proof (averageEffect_frame now cb st0) as (Fh & _ & Fr & _).
    pose proof (averageEffect_modal now cb st0) as Fm.
    destruct (Tracker.averageEffect now cb st0) as [st1 out1].
    specialize (IH st1). cbn zeta in IH.
    destruct (Tracker.commit fuel now cb st1) as [st2 out2].
    cbn [fst] in *.
    rewrite (qualifies_ext now st st0) in Fm by reflexivity.
    rewrite (qualifies_ext now st st1) in IH by assumption.
    change (Tracker.showContentSuggestionModal st0)
      with (Tracker.showContentSuggestionModal st) in Fm.
    destruct IH as [Hkeep Hwhy]. rewrite Fm in Hkeep, Hwhy.
    split.
    + intros Hopen. apply Hkeep. rewrite Hopen. reflexivity.
    + intros Hopen. destruct (Hwhy Hopen) as [H|H]; [|right; exact H].
      apply orb_true_iff in H. exact H.
Qed.

(** ** The tracker's side of a step *)

Lemma step_tracker st d e :
  exists cb, fst (System.step (st, d) e) = trackerAfter cb e st.
Proof.
  destruct e as [now focusScore|now|now|now].
  - exists (System.callback d). apply step_sample_tracker.
  - eexists. rewrite step_confirm. reflexivity.
  - exists (System.callback d). cbn [System.step trackerAfter].
    destruct (Tracker.commit _ _ _ _). reflexivity.
  - exists (System.callback d). cbn [System.step trackerAfter].
    destruct (Tracker.onClose _ _ _). reflexivity.
Qed.

Lemma recorded_handler st st' :
  Tracker.effectDeps st' = Tracker.effectDeps st ->
  Tracker.historyId st' = Tracker.historyId st ->
  recorded st -> recorded st'.
Proof. unfold recorded. intros -> ->. auto. Qed.

Lemma trackerAfter_recorded cb e st :
  recorded st -> recorded (trackerAfter cb e st).
Proof.
  intros Hrec. destruct e as [now [q|]|now|now|now]; cbn [trackerAfter].
  - apply (onSample_numeric now cb q st Hrec).
  - exact Hrec.
  - apply commit_frame. exact Hrec.
  - apply commit_frame. exact Hrec.
  - unfold Tracker.onClose. apply commit_frame. exact Hrec.
Qed.

Lemma trackerAfter_history cb e st :
  Tracker.focusScoreHistory (trackerAfter cb e st)
  = fold_left Tracker.pushHistory (roundedSamples [e])
      (Tracker.focusScoreHistory st).
Proof.
  destruct e as [now [q|]|now|now|now]; cbn [trackerAfter roundedSamples
    flat_map app fold_left].
  - apply onSample_history.
  - reflexivity.
  - exact (proj1 (commit_frame Tracker.RENDER_FUEL now cb
                    (Tracker.handleDismissSuggestion now st))).
  - exact (proj1 (commit_frame Tracker.RENDER_FUEL now cb
                    (Tracker.handleDismissSuggestion now st))).
  - exact (proj1 (commit_frame Tracker.RENDER_FUEL now cb
                    (Tracker.onOpenChange false st))).
Qed.

Lemma trackerAfter_averaged cb e st :
  recorded st ->
  averaged st \/ roundedSamples [e] <> [] ->
  averaged (trackerAfter cb e st).
Proof.
  intros Hrec Hav.
  assert (Hold : roundedSamples [e] = [] -> averaged st)
    by (intros Hnil; destruct Hav; [assumption | contradiction]).
  destruct e as [now [q|]|now|now|now]; cbn [trackerAfter].
  - pose proof (onSample_numeric now cb q st Hrec) as H. cbn zeta in H.
    destruct H as (Hh & _ & Ha & _). intros _. rewrite Ha, Hh. reflexivity.
  - apply Hold. reflexivity.
  - apply commit_averaged. apply Hold. reflexivity.
  - apply commit_averaged. apply Hold. reflexivity.
  - unfold Tracker.onClose. apply commit_averaged. apply Hold. reflexivity.
Qed.

Lemma trackerAfter_ref cb e st :
  Tracker.lastSuggestionTimeRef (trackerAfter cb e st)
  = match e with
    | System.Confirm now | System.Dismiss now => Some now
    | _ => Tracker.lastSuggestionTimeRef st
    end.
Proof.
  destruct e as [now [q|]|now|now|now]; cbn [trackerAfter].
  - unfold Tracker.onSample.
    set (st1 := fst (fst (Tracker.onFocusScoreUpdate (Some q) st))).
    change (Tracker.onFocusScoreUpdate (Some q) st)
      with (st1, @nil Tracker.Output, true).
    cbn iota.
    pose proof (commit_frame Tracker.RENDER_FUEL now cb st1) as (_ & _ & Hr & _).
    destruct (Tracker.commit Tracker.RENDER_FUEL now cb st1). exact Hr.
  - reflexivity.
  - exact (proj1 (proj2 (proj2 (commit_frame Tracker.RENDER_FUEL now cb
                                  (Tracker.handleDismissSuggestion now st))))).
  - exact (proj1 (proj2 (proj2 (commit_frame Tracker.RENDER_FUEL now cb
                                  (Tracker.handleDismissSuggestion now st))))).
  - exact (proj1 (proj2 (proj2 (commit_frame Tracker.RENDER_FUEL now cb
                                  (Tracker.onOpenChange false st))))).
Qed.

Lemma qualifies_cooldown now st :
  qualifies now st = true ->
  Tracker.isOnCooldown (Tracker.lastSuggestionTimeRef st) now = false.
Proof. intros H. apply qualifies_iff in H. tauto. Qed.

(** Why the dialog can be open after an event. *)
Lemma trackerAfter_modal cb e st :
  Tracker.showContentSuggestionModal (trackerAfter cb e st) = true ->
  match e with
  | System.Sample now _ =>
      Tracker.showContentSuggestionModal st = true
      \/ Tracker.isOnCooldown (Tracker.lastSuggestionTimeRef st) now = false
  | System.Confirm now | System.Dismiss now => now = 0
  | System.Close now =>
      Tracker.isOnCooldown (Tracker.lastSuggestionTimeRef st) now = false
  end.
Proof.
  destruct e as [now [q|]|now|now|now]; cbn [trackerAfter]; intros Hopen.
  - unfold Tracker.onSample in Hopen.
    set (st1 := fst (fst (Tracker.onFocusScoreUpdate (Some q) st))) in *.
    change (Tracker.onFocusScoreUpdate (Some q) st)
      with (st1, @nil Tracker.Output, true) in Hopen.
    cbn iota in Hopen.
    pose proof (commit_modal Tracker.RENDER_FUEL now cb st1) as [_ Hwhy].
    destruct (Tracker.commit Tracker.RENDER_FUEL now cb st1).
    cbn [fst] in *. destruct (Hwhy Hopen) as [H|H]; [left; exact H|].
    right. apply qualifies_cooldown in H. exact H.
  - left. exact Hopen.
  - pose proof (commit_modal Tracker.RENDER_FUEL now cb
                  (Tracker.handleDismissSuggestion now st)) as [_ Hwhy].
    destruct (Hwhy Hopen) as [H|H]; [discriminate|].
    apply qualifies_cooldown, cooldown_over in H. cbn in H. lia.
  - pose proof (commit_modal Tracker.RENDER_FUEL now cb
                  (Tracker.handleDismissSuggestion now st)) as [_ Hwhy].
    destruct (Hwhy Hopen) as [H|H]; [discriminate|].
    apply qualifies_cooldown, cooldown_over in H. cbn in H. lia.
  - unfold Tracker.onClose in Hopen.
    pose proof (commit_modal Tracker.RENDER_FUEL now cb
                  (Tracker.onOpenChange false st)) as [_ Hwhy].
    destruct (Hwhy Hopen) as [H|H]; [discriminate|].
    apply qualifies_cooldown in H. exact H.
Qed.

(** ** The window over a whole session *)

Lemma mostRecent_absorb {A : Type} (n : nat) (l ys : list A) :
  Spec.mostRecent n (Spec.mostRecent n l ++ ys) = Spec.mostRecent n (l ++ ys).
Proof.
  unfold Spec.mostRecent. rewrite !rev_app_distr, rev_involutive.
  rewrite !firstn_app, firstn_firstn.
  replace (Nat.min (n - List.length (rev ys)) n)
    with (n - List.length (rev ys))%nat by lia.
  reflexivity.
Qed.

Lemma mostRecent_app_long {A : Type} (n : nat) (l ys : list A) :
  (n <= List.length ys)%nat ->
  Spec.mostRecent n (l ++ ys) = Spec.mostRecent n ys.
Proof.
  intros Hlen. unfold Spec.mostRecent.
  rewrite rev_app_distr, firstn_app, length_rev.
  replace (n - List.length ys)%nat with 0%nat by lia.
  cbn [firstn]. rewrite app_nil_r. reflexivity.
Qed.

Lemma fold_pushHistory (xs : list Z) :
  forall h,
    xs <> [] ->
    fold_left Tracker.pushHistory xs h = Spec.mostRecent 5 (h ++ xs).
Proof.
  induction xs as [|x xs IH]; intros h Hne; [congruence|].
  cbn [fold_left]. rewrite pushHistory_mostRecent.
  change Tracker.FOCUS_HISTORY_SIZE with 5%nat.
  destruct xs as [|y xs].
  - reflexivity.
  - rewrite IH by discriminate. rewrite mostRecent_absorb, <- app_assoc.
    reflexivity.
Qed.

Lemma roundedSamples_cons e events :
  roundedSamples (e :: events) = roundedSamples [e] ++ roundedSamples events.
Proof.
  unfold roundedSamples. cbn [flat_map]. rewrite app_nil_r. reflexivity.
Qed.

(** The tracker over a whole session: its history is obtained from the
    rounded numeric samples alone, whatever else happens in between. *)
Lemma run_tracker events :
  forall st d,
    recorded st ->
    let st' := fst (System.run events (st, d)) in
    recorded st'
    /\ Tracker.focusScoreHistory st'
       = fold_left Tracker.pushHistory (roundedSamples events)
           (Tracker.focusScoreHistory st)
    /\ (averaged st \/ roundedSamples events <> [] -> averaged st').
Proof.
  induction events as [|e events IH]; intros st d Hrec; cbn zeta.
  - cbn. repeat split; try assumption.
    intros [H|H]; [exact H | congruence].
  - cbn [System.run fold_left].
    destruct (step_tracker st d e) as [cb Hstep].
    destruct (System.step (st, d) e) as [st1 d1]. cbn [fst] in Hstep.
    subst st1.
    pose proof (trackerAfter_recorded cb e st Hrec) as Hrec1.
    destruct (IH (trackerAfter cb e st) d1 Hrec1) as (Hr & Hh & Ha).
    unfold System.run in *. split; [exact Hr|]. split.
    + rewrite Hh, trackerAfter_history, (roundedSamples_cons e events),
        fold_left_app.
      reflexivity.
    + intros Hor. apply Ha.
      destruct (roundedSamples events) as [|x xs] eqn:Hrest;
        [left | right; discriminate].
      apply trackerAfter_averaged; [exact Hrec|].
      destruct Hor as [H|H]; [left; exact H|].
      right. rewrite roundedSamples_cons, Hrest, app_nil_r in H. exact H.
Qed.

(** Without a numeric sample and with an empty history the stored average
    does not move. *)
Lemma run_without_samples events :
  forall st d,
    roundedSamples events = [] ->
    Tracker.focusScoreHistory st = [] ->
    let st' := fst (System.run events (st, d)) in
    Tracker.focusScoreHistory st' = []
    /\ Tracker.averageFocusScore st' = Tracker.averageFocusScore st.
Proof.
  induction events as [|e events IH]; intros st d Hnone Hempty; cbn zeta.
  - cbn. auto.
  - cbn [System.run fold_left].
    rewrite roundedSamples_cons in Hnone.
    apply app_eq_nil in Hnone. destruct Hnone as [He Hrest].
    destruct (step_tracker st d e) as [cb Hstep].
    destruct (System.step (st, d) e) as [st1 d1]. cbn [fst] in Hstep.
    subst st1.
    assert (Hh1 : Tracker.focusScoreHistory (trackerAfter cb e st) = []).
    { rewrite trackerAfter_history, He. exact Hempty. }
    assert (Ha1 : Tracker.averageFocusScore (trackerAfter cb e st)
                  = Tracker.averageFocusScore st).
    { destruct e as [now [q|]|now|now|now]; cbn [trackerAfter];
        try discriminate; try reflexivity.
      - destruct (commit_average Tracker.RENDER_FUEL now cb
                    (Tracker.handleDismissSuggestion now st)) as [H|[H _]];
          [exact H | contradiction].
      - destruct (commit_average Tracker.RENDER_FUEL now cb
                    (Tracker.handleDismissSuggestion now st)) as [H|[H _]];
          [exact H | contradiction].
      - destruct (commit_average Tracker.RENDER_FUEL now cb
                    (Tracker.onOpenChange false st)) as [H|[H _]];
          [exact H | contradiction]. }
    destruct (IH (trackerAfter cb e st) d1 Hrest Hh1) as (Hh & Ha).
    unfold System.run in *. rewrite Hh, Ha, Ha1. auto.
Qed.

Lemma recorded_initial : recorded Tracker.initial.
Proof. exact I. Qed.

Lemma averaged_initial : averaged Tracker.initial.
Proof. intros H. cbn in H. congruence. Qed.

(** X1: over any session from a fresh tracker (samples of any value,
    undefined samples, confirmations, dismissals, closings), the window is
    the last five of the rounded numeric samples in arrival order and never
    holds more than five entries.  When the numeric samples lie in
    [0, 100] and at least one has arrived, the smoothed signal is the
    rounded mean of the window; before any has arrived it is the default
    75. *)
Theorem window_over_session (events : list System.Event) (d : Dashboard.State) :
  let st := fst (System.run events (Tracker.initial, d)) in
  Tracker.focusScoreHistory st = Spec.mostRecent 5 (roundedSamples events)
  /\ (List.length (Tracker.focusScoreHistory st) <= 5)%nat
  /\ (samplesInRange events = true ->
      roundedSamples events <> [] ->
      Tracker.averageFocusScore st
      = Spec.roundedMean (Tracker.focusScoreHistory st))
  /\ (roundedSamples events = [] -> Tracker.averageFocusScore st = 75).
Proof.
  cbn zeta.
  destruct (run_tracker events Tracker.initial d recorded_initial)
    as (_ & Hh & Ha).
  assert (Hwin : Tracker.focusScoreHistory
                   (fst (System.run events (Tracker.initial, d)))
                 = Spec.mostRecent 5 (roundedSamples events)).
  { rewrite Hh. destruct (roundedSamples events) as [|x xs] eqn:Hs.
    - reflexivity.
    - rewrite fold_pushHistory by discriminate. reflexivity. }
  split; [exact Hwin|]. split; [|split].
  - rewrite Hwin, mostRecent_length. lia.
  - intros _ Hne.
    assert (Hne' : Tracker.focusScoreHistory
                     (fst (System.run events (Tracker.initial, d))) <> []).
    { rewrite Hwin. intros Hnil. apply (f_equal (@List.length Z)) in Hnil.
      rewrite mostRecent_length in Hnil.
      change (List.length (@nil Z)) with 0%nat in Hnil.
      destruct (roundedSamples events) as [|x xs];
        [congruence | cbn [List.length] in Hnil; lia]. }
    rewrite (Ha (or_intror Hne) Hne'). apply average_roundedMean. exact Hne'.
  - intros Hnone.
    apply (run_without_samples events Tracker.initial d Hnone eq_refl).
Qed.

(** The session with fractions: the window is [4, 3] and the smoothed
    signal 4. *)
Lemma window_over_session_fractions :
  Tracker.averageFocusScore
    (fst (System.run fractionalSession (Tracker.initial, readingDashboard)))
  = Spec.roundedMean
      (Tracker.focusScoreHistory
         (fst (System.run fractionalSession
                 (Tracker.initial, readingDashboard)))).
Proof.
  refine (proj1 (proj2 (proj2 (window_over_session fractionalSession
                                 readingDashboard))) _ _).
  - reflexivity.
  - vm_compute. discriminate.
Defined.

(** X2: after five or more numeric samples, all within [0, 100], the
    window and the smoothed signal no longer depend on the state the
    tracker was in before: they are the last five rounded samples and their
    rounded mean. *)
Theorem window_forgets_the_past
    (events : list System.Event) (st : Tracker.State) (d : Dashboard.State) :
  recorded st ->
  samplesInRange events = true ->
  (5 <= List.length (roundedSamples events))%nat ->
  let st' := fst (System.run events (st, d)) in
  Tracker.focusScoreHistory st' = Spec.mostRecent 5 (roundedSamples events)
  /\ Tracker.averageFocusScore st'
     = Spec.roundedMean (Spec.mostRecent 5 (roundedSamples events)).
Proof.
  intros Hrec _ Hlen. cbn zeta.
  destruct (run_tracker events st d Hrec) as (_ & Hh & Ha).
  assert (Hne : roundedSamples events <> []).
  { intros Hnil. rewrite Hnil in Hlen. cbn in Hlen. lia. }
  rewrite fold_pushHistory, mostRecent_app_long in Hh by assumption.
  split; [exact Hh|].
  assert (Hne' : Spec.mostRecent 5 (roundedSamples events) <> []).
  { intros Hnil. apply (f_equal (@List.length Z)) in Hnil.
    rewrite mostRecent_length in Hnil.
    change (List.length (@nil Z)) with 0%nat in Hnil. lia. }
  specialize (Ha (or_intror Hne)). unfold averaged in Ha.
  rewrite Hh in Ha. rewrite (Ha Hne'). apply average_roundedMean. exact Hne'.
Qed.

(** The session of six low samples, started with the dialog open. *)
Lemma window_forgets_the_past_low_session :
  recorded afterFiveLow
  /\ Tracker.focusScoreHistory
       (fst (System.run (sampleEvents (lowSamples 6))
               (afterFiveLow, readingDashboard)))
     = [10; 10; 10; 10; 10].
Proof.
  assert (Hrec : recorded afterFiveLow) by (vm_compute; lia).
  split; [exact Hrec|].
  refine (proj1 (window_forgets_the_past (sampleEvents (lowSamples 6))
                   afterFiveLow readingDashboard Hrec _ _)).
  - reflexivity.
  - vm_compute. lia.
Defined.

(** ** Range of the smoothed signal *)

Lemma Math_round_range (q : Q) :
  Qle_bool 0 q && Qle_bool q 100 = true ->
  0 <= JS.Math_round q <= 100.
Proof.
  intros H. apply andb_true_iff in H. destruct H as [Hlo Hhi].
  apply Qle_bool_iff in Hlo, Hhi. unfold JS.Math_round. split.
  - change 0 with (Qfloor (0 + (1 # 2))). apply Qfloor_resp_le.
    apply Qplus_le_l. exact Hlo.
  - change 100 with (Qfloor (100 + (1 # 2))). apply Qfloor_resp_le.
    apply Qplus_le_l. exact Hhi.
Qed.

Lemma total_bounds (lo hi : Z) (l : list Z) :
  Forall (fun x => lo <= x <= hi) l ->
  Z.of_nat (List.length l) * lo <= Spec.total l
  <= Z.of_nat (List.length l) * hi.
Proof.
  induction 1 as [|x l Hx Hl IH].
  - cbn. lia.
  - cbn [Spec.total List.length]. rewrite Nat2Z.inj_succ. lia.
Qed.

(** The rounded mean lies between the bounds of the entries. *)
Lemma roundedMean_bounds (lo hi : Z) (l : list Z) :
  l <> [] ->
  Forall (fun x => lo <= x <= hi) l ->
  lo <= Spec.roundedMean l <= hi.
Proof.
  intros Hne Hall. pose proof (total_bounds lo hi l Hall) as Hsum.
  unfold Spec.roundedMean.
  assert (Hn : 0 < Z.of_nat (List.length l)).
  { destruct l; [congruence | cbn [List.length]; lia]. }
  set (n := Z.of_nat (List.length l)) in *.
  split.
  - apply Z.div_le_lower_bound; lia.
  - apply Z.lt_succ_r. apply Z.div_lt_upper_bound; lia.
Qed.

Lemma Forall_firstn {A : Type} (P : A -> Prop) (n : nat) :
  forall l, Forall P l -> Forall P (firstn n l).
Proof.
  induction n as [|n IH]; intros l Hl; [constructor|].
  destruct Hl as [|x l Hx Hl]; cbn; constructor; auto.
Qed.

Lemma Forall_mostRecent {A : Type} (P : A -> Prop) (n : nat) (l : list A) :
  Forall P l -> Forall P (Spec.mostRecent n l).
Proof.
  intros H. unfold Spec.mostRecent.
  apply Forall_rev, Forall_firstn, Forall_rev. exact H.
Qed.

Lemma roundedSamples_range events :
  samplesInRange events = true ->
  Forall (fun x => 0 <= x <= 100) (roundedSamples events).
Proof.
  induction events as [|e events IH]; intros H; [constructor|].
  cbn [samplesInRange forallb] in H. apply andb_true_iff in H.
  destruct H as [He Hrest].
  rewrite roundedSamples_cons. apply Forall_app. split; [|apply IH; exact Hrest].
  destruct e as [now [q|]|now|now|now]; cbn; constructor;
    [apply Math_round_range; exact He | constructor].
Qed.

(** X3: when every numeric sample of a session lies in [0, 100]
    (fractions included), every entry of the window and the smoothed
    signal lie in [0, 100] too, whatever dialogs were opened, confirmed,
    dismissed or closed on the way. *)
Theorem smoothed_signal_in_range
    (events : list System.Event) (d : Dashboard.State) :
  samplesInRange events = true ->
  let st := fst (System.run events (Tracker.initial, d)) in
  Forall (fun x => 0 <= x <= 100) (Tracker.focusScoreHistory st)
  /\ 0 <= Tracker.averageFocusScore st <= 100.
Proof.
  intros Hrange. cbn zeta.
  destruct (run_tracker events Tracker.initial d recorded_initial)
    as (_ & Hh & Ha).
  pose proof (roundedSamples_range events Hrange) as Hall.
  destruct (roundedSamples events) as [|x xs] eqn:Hs.
  - destruct (run_without_samples events Tracker.initial d Hs eq_refl)
      as (Hempty & Havg).
    rewrite Hempty, Havg. split; [constructor | cbn; lia].
  - rewrite fold_pushHistory in Hh by discriminate.
    cbn [Tracker.initial Tracker.focusScoreHistory app] in Hh.
    assert (Hwin : Forall (fun x => 0 <= x <= 100)
                     (Spec.mostRecent 5 (x :: xs)))
      by (apply Forall_mostRecent; exact Hall).
    assert (Hne : Spec.mostRecent 5 (x :: xs) <> []).
    { intros Hnil. apply (f_equal (@List.length Z)) in Hnil.
      rewrite mostRecent_length in Hnil. cbn [List.length] in Hnil. lia. }
    rewrite Hh. split; [exact Hwin|].
    assert (Hor : averaged Tracker.initial \/ x :: xs <> [])
      by (right; discriminate).
    specialize (Ha Hor). unfold averaged in Ha. rewrite Hh in Ha.
    rewrite (Ha Hne), average_roundedMean by exact Hne.
    apply roundedMean_bounds; assumption.
Qed.

(** A session with the fractional samples 3.7 and 2.5 and an undefined
    one. *)
Lemma smoothed_signal_in_range_fractions :
  0 <= Tracker.averageFocusScore
         (fst (System.run
                 [System.Sample 0 (Some (37 # 10)); System.Sample 1 None;
                  System.Close 2; System.Sample 3 (Some (5 # 2))]
                 (Tracker.initial, readingDashboard))) <= 100.
Proof.
  refine (proj2 (smoothed_signal_in_range
                   [System.Sample 0 (Some (37 # 10)); System.Sample 1 None;
                    System.Close 2; System.Sample 3 (Some (5 # 2))]
                   readingDashboard _)).
  reflexivity.
Defined.

(** ** The dialog between decisions *)

Lemma trackerAfter_sample_keeps_open cb now focusScore st :
  Tracker.showContentSuggestionModal st = true ->
  Tracker.showContentSuggestionModal
    (trackerAfter cb (System.Sample now focusScore) st) = true.
Proof.
  intros Hopen. destruct focusScore as [q|]; cbn [trackerAfter];
    [|exact Hopen].
  unfold Tracker.onSample.
  set (st1 := fst (fst (Tracker.onFocusScoreUpdate (Some q) st))).
  change (Tracker.onFocusScoreUpdate (Some q) st)
    with (st1, @nil Tracker.Output, true).
  cbn iota.
  pose proof (commit_modal Tracker.RENDER_FUEL now cb st1) as [Hkeep _].
  destruct (Tracker.commit Tracker.RENDER_FUEL now cb st1).
  apply Hkeep. exact Hopen.
Qed.

(** X4: samples never close the dialog and never touch the cooldown
    reference: over any run of sample events [lastSuggestionTimeRef] is
    what it was, and a dialog that was open is still open.  Only the
    viewer's confirmation, dismissal or closing ends a suggestion. *)
Theorem samples_leave_dialog_open
    (events : list System.Event) (st : Tracker.State) (d : Dashboard.State) :
  onlySamples events = true ->
  let st' := fst (System.run events (st, d)) in
  Tracker.lastSuggestionTimeRef st' = Tracker.lastSuggestionTimeRef st
  /\ (Tracker.showContentSuggestionModal st = true ->
      Tracker.showContentSuggestionModal st' = true).
Proof.
  revert st d. induction events as [|e events IH]; intros st d Hs; cbn zeta.
  - cbn. auto.
  - cbn [onlySamples forallb] in Hs. apply andb_true_iff in Hs.
    destruct Hs as [He Hrest].
    cbn [System.run fold_left].
    destruct (step_tracker st d e) as [cb Hstep].
    destruct (System.step (st, d) e) as [st1 d1]. cbn [fst] in Hstep.
    subst st1.
    destruct (IH (trackerAfter cb e st) d1 Hrest) as (Hr & Hm).
    unfold System.run in *.
    destruct e as [now focusScore|now|now|now]; try discriminate.
    rewrite Hr, trackerAfter_ref. split; [reflexivity|].
    intros Hopen. apply Hm. apply trackerAfter_sample_keeps_open. exact Hopen.
Qed.

(** Two further low samples while the dialog is open. *)
Lemma samples_leave_dialog_open_low_session :
  Tracker.showContentSuggestionModal
    (fst (System.run (sampleEvents (lowSamples 2))
            (afterFiveLow, readingDashboard))) = true.
Proof.
  refine (proj2 (samples_leave_dialog_open (sampleEvents (lowSamples 2))
                   afterFiveLow readingDashboard _) _); reflexivity.
Defined.

Lemma samples_in_cooldown (t : Z) (events : list System.Event) :
  forall st d,
    t <> 0 ->
    samplesBefore (t + 60000) events = true ->
    Tracker.lastSuggestionTimeRef st = Some t ->
    Tracker.showContentSuggestionModal st = false ->
    Tracker.showContentSuggestionModal (fst (System.run events (st, d)))
    = false.
Proof.
  induction events as [|e events IH]; intros st d Ht Hs Href Hclosed.
  - exact Hclosed.
  - cbn [samplesBefore forallb] in Hs. apply andb_true_iff in Hs.
    destruct Hs as [He Hrest].
    cbn [System.run fold_left].
    destruct (step_tracker st d e) as [cb Hstep].
    destruct (System.step (st, d) e) as [st1 d1]. cbn [fst] in Hstep.
    subst st1.
    destruct e as [now focusScore|now|now|now]; try discriminate.
    apply Z.ltb_lt in He.
    apply (IH _ d1 Ht Hrest).
    + rewrite trackerAfter_ref. exact Href.
    + destruct (Tracker.showContentSuggestionModal
                  (trackerAfter cb (System.Sample now focusScore) st)) eqn:Hm;
        [|reflexivity].
      apply trackerAfter_modal in Hm. destruct Hm as [Hm|Hm]; [congruence|].
      rewrite Href in Hm. apply cooldown_over in Hm. lia.
Qed.

(** X5: a dismissal or a confirmation at time [t] (not 0) starts the
    cooldown: the dialog is closed, and no sample that arrives before
    [t + 60000], however low, opens it again. *)
Theorem resolution_starts_cooldown
    (t : Z) (events : list System.Event) (st : Tracker.State)
    (d : Dashboard.State) :
  t <> 0 ->
  samplesBefore (t + 60000) events = true ->
  Tracker.showContentSuggestionModal
    (fst (System.run (System.Dismiss t :: events) (st, d))) = false
  /\ Tracker.showContentSuggestionModal
       (fst (System.run (System.Confirm t :: events) (st, d))) = false.
Proof.
  intros Ht Hs.
  assert (Hres : forall e, e = System.Dismiss t \/ e = System.Confirm t ->
            Tracker.showContentSuggestionModal
              (fst (System.run (e :: events) (st, d))) = false).
  { intros e He. cbn [System.run fold_left].
    destruct (step_tracker st d e) as [cb Hstep].
    destruct (System.step (st, d) e) as [st1 d1]. cbn [fst] in Hstep.
    subst st1.
    apply (samples_in_cooldown t events _ d1 Ht Hs).
    - rewrite trackerAfter_ref. destruct He as [->| ->]; reflexivity.
    - destruct (Tracker.showContentSuggestionModal (trackerAfter cb e st))
        eqn:Hm; [|reflexivity].
      apply trackerAfter_modal in Hm.
      destruct He as [->| ->]; contradiction. }
  split; apply Hres; auto.
Qed.

(** A dismissal at time 5 of the open dialog, then low samples at times 6
    and 60004. *)
Lemma resolution_starts_cooldown_low_session :
  Tracker.showContentSuggestionModal
    (fst (System.run
            [System.Dismiss 5; System.Sample 6 (Some (inject_Z 10));
             System.Sample 60004 (Some (inject_Z 10))]
            (afterFiveLow, readingDashboard))) = false.
Proof.
  refine (proj1 (resolution_starts_cooldown 5
                   [System.Sample 6 (Some (inject_Z 10));
                    System.Sample 60004 (Some (inject_Z 10))]
                   afterFiveLow readingDashboard _ _)); [lia | reflexivity].
Defined.

(** X6: closing the dialog while the history still qualifies (five
    entries, rounded mean below 40, no cooldown) does not close it: the
    render that follows finds the flag changed, re-runs the effect, and the
    effect opens the dialog again and notifies the host twice, with no new
    sample and with [lastSuggestionTimeRef] untouched. *)
Theorem close_reopens_while_low
    (closed : Z) (cb : nat) (st : Tracker.State) :
  settled (Some cb) st ->
  Tracker.showContentSuggestionModal st = true ->
  (5 <= List.length (Tracker.focusScoreHistory st))%nat ->
  Spec.roundedMean (Tracker.focusScoreHistory st) < 40 ->
  Tracker.isOnCooldown (Tracker.lastSuggestionTimeRef st) closed = false ->
  let r := Tracker.onClose closed (Some cb) st in
  Tracker.showContentSuggestionModal (fst r) = true
  /\ Tracker.lastSuggestionTimeRef (fst r) = Tracker.lastSuggestionTimeRef st
  /\ Tracker.notifications (snd r)
     = [ambient (Spec.roundedMean (Tracker.focusScoreHistory st));
        ambient (Spec.roundedMean (Tracker.focusScoreHistory st))].
Proof.
  intros Hset Hopen Hlen Hmean Hcd. cbn zeta. unfold Tracker.onClose.
  assert (Hne : Tracker.focusScoreHistory (Tracker.onOpenChange false st) <> []).
  { cbn. intros Hnil. rewrite Hnil in Hlen. cbn in Hlen. lia. }
  assert (Hq : qualifies closed (Tracker.onOpenChange false st) = true).
  { apply qualifies_iff. cbn. auto. }
  pose proof (commit_changed 2 closed (Some cb) (Tracker.onOpenChange false st)
                (close_changes_deps _ _ Hset Hopen) Hne) as H.
  cbn zeta in H. destruct H as (_ & _ & Hr & _ & Hm & _ & Hout).
  change (Tracker.commit 4) with (Tracker.commit Tracker.RENDER_FUEL) in *.
  rewrite Hm, Hr, Hout, Hq. cbn [negb andb orb repeat].
  change (Tracker.focusScoreHistory (Tracker.onOpenChange false st))
    with (Tracker.focusScoreHistory st).
  rewrite average_roundedMean by exact Hne.
  repeat split.
Qed.

(** The dialog opened by five low samples, closed at time 5. *)
Lemma close_reopens_while_low_session :
  Tracker.showContentSuggestionModal
    (fst (Tracker.onClose 5 (Some 1%nat) afterFiveLow)) = true.
Proof.
  refine (proj1 (close_reopens_while_low 5 1 afterFiveLow _ _ _ _ _));
    try reflexivity; vm_compute; lia.
Defined.

(** * Further properties of the dashboard *)

(** ** [updateContentType] *)

Lemma updateContentType_result now level d c :
  Dashboard.currentData d = Some c ->
  Dashboard.currentData (Dashboard.updateContentType now level d)
  = Some (if String.eqb (Dashboard.newTypeFor level) (Dashboard.type c)
          then c
          else {| Dashboard.focusScore := level;
                  Dashboard.type := Dashboard.newTypeFor level;
                  Dashboard.data := Dashboard.data c;
                  Dashboard.timestamp := Some now |})
  /\ Dashboard.requests (Dashboard.updateContentType now level d)
     = Dashboard.requests d
  /\ Dashboard.attentionData (Dashboard.updateContentType now level d)
     = Dashboard.attentionData d.
Proof.
  intros Hc. unfold Dashboard.updateContentType. rewrite Hc.
  destruct (String.eqb (Dashboard.newTypeFor level) (Dashboard.type c));
    cbn; auto.
Qed.

Lemma updateContentType_idempotent now now' level d :
  Dashboard.updateContentType now' level
    (Dashboard.updateContentType now level d)
  = Dashboard.updateContentType now level d.
Proof.
  destruct (Dashboard.currentData d) as [c|] eqn:Hc.
  - assert (E : Dashboard.updateContentType now level d
                = if String.eqb (Dashboard.newTypeFor level) (Dashboard.type c)
                  then d
                  else Dashboard.setCurrentData
                         (Some {| Dashboard.focusScore := level;
                                  Dashboard.type := Dashboard.newTypeFor level;
                                  Dashboard.data := Dashboard.data c;
                                  Dashboard.timestamp := Some now |}) d).
    { unfold Dashboard.updateContentType. rewrite Hc.
      destruct (String.eqb _ _); reflexivity. }
    rewrite E.
    destruct (String.eqb_spec (Dashboard.newTypeFor level) (Dashboard.type c))
      as [Hsame|Hdiff].
    + apply (updateContentType_same_format now' level d c); assumption.
    + unfold Dashboard.updateContentType.
      cbn [Dashboard.currentData Dashboard.setCurrentData Dashboard.type].
      rewrite String.eqb_refl. reflexivity.
  - unfold Dashboard.updateContentType. rewrite Hc. cbn. rewrite Hc.
    reflexivity.
Qed.

(** X7: on a dashboard with content, [updateContentType] leaves content of
    the format classified for the level, with the payload it had; the
    focus score and the timestamp are renewed exactly when the format
    changes (a level that stays in the band leaves the old focus score);
    no request is issued; and a second call with the same level changes
    nothing more. *)
Theorem updateContentType_postcondition
    (now now' level : Z) (d : Dashboard.State) (c : Dashboard.ContentData) :
  Dashboard.currentData d = Some c ->
  exists c',
    Dashboard.currentData (Dashboard.updateContentType now level d) = Some c'
    /\ Dashboard.type c' = Dashboard.newTypeFor level
    /\ Dashboard.data c' = Dashboard.data c
    /\ (Dashboard.type c <> Dashboard.newTypeFor level ->
        Dashboard.focusScore c' = level
        /\ Dashboard.timestamp c' = Some now)
    /\ (Dashboard.type c = Dashboard.newTypeFor level -> c' = c)
    /\ Dashboard.requests (Dashboard.updateContentType now level d)
       = Dashboard.requests d
    /\ Dashboard.updateContentType now' level
         (Dashboard.updateContentType now level d)
       = Dashboard.updateContentType now level d.
Proof.
  intros Hc.
  destruct (updateContentType_result now level d c Hc) as (Hcur & Hreq & _).
  eexists. split; [exact Hcur|].
  destruct (String.eqb_spec (Dashboard.newTypeFor level) (Dashboard.type c))
    as [Heq|Hneq].
  - split; [symmetry; exact Heq|]. split; [reflexivity|].
    split; [intros Hdiff; congruence|]. split; [reflexivity|].
    split; [exact Hreq | apply updateContentType_idempotent].
  - split; [reflexivity|]. split; [reflexivity|].
    split; [intros _; split; reflexivity|].
    split; [intros Hsame; congruence|].
    split; [exact Hreq | apply updateContentType_idempotent].
Qed.

(** The text content at level 50: the format becomes tiktok. *)
Lemma updateContentType_postcondition_text :
  exists c',
    Dashboard.currentData (Dashboard.updateContentType 2000 50 readingDashboard)
    = Some c'
    /\ Dashboard.type c' = "tiktok"%string.
Proof.
  destruct (updateContentType_postcondition 2000 3000 50 readingDashboard
              {| Dashboard.focusScore := 89; Dashboard.type := "text";
                 Dashboard.data := Some "plain text"%string;
                 Dashboard.timestamp := None |} eq_refl)
    as (c' & Hcur & Hty & _).
  exists c'. split; [exact Hcur | exact Hty].
Defined.

(** ** Notifications and the effect of lines 162-166 *)

Lemma attentionEffect_redundant
    (now now' : Z) (a : AttentionData.t) (d : Dashboard.State) :
  Dashboard.attentionEffect now' (Dashboard.handleAttentionChange now a d)
  = Dashboard.handleAttentionChange now a d.
Proof.
  unfold Dashboard.handleAttentionChange.
  destruct (Dashboard.currentData d) as [c|] eqn:Hc.
  - destruct (AttentionData.shouldSwitchContent a) eqn:Ha.
    + set (d1 := Dashboard.setAttentionData a d).
      assert (Hc1 : Dashboard.currentData d1 = Some c) by exact Hc.
      destruct (updateContentType_result now (AttentionData.attentionLevel a)
                  d1 c Hc1) as (Hcur & _ & Hatt).
      unfold Dashboard.attentionEffect. rewrite Hcur, Hatt.
      cbn [d1 Dashboard.setAttentionData Dashboard.attentionData].
      rewrite Ha. apply updateContentType_idempotent.
    + unfold Dashboard.attentionEffect. cbn. rewrite Hc, Ha. reflexivity.
  - unfold Dashboard.attentionEffect. cbn. rewrite Hc. reflexivity.
Qed.

(** X8: the effect of lines 162-166 adds nothing to
    [handleAttentionChange]: run after it, at any time, it leaves the
    state as the handler left it, because the handler has already brought
    the format in line with the level. *)
Theorem attentionEffect_after_handler
    (now now' : Z) (a : AttentionData.t) (d : Dashboard.State) :
  Dashboard.attentionEffect now' (Dashboard.handleAttentionChange now a d)
  = Dashboard.handleAttentionChange now a d
  /\ Dashboard.deliver now d a = Dashboard.handleAttentionChange now a d.
Proof.
  split; [|unfold Dashboard.deliver]; apply attentionEffect_redundant.
Qed.

Lemma deliver_confirm now level d c :
  Dashboard.currentData d = Some c ->
  exists c',
    Dashboard.currentData
      (Dashboard.deliver now d
         {| AttentionData.attentionLevel := level;
            AttentionData.shouldSwitchContent := true |}) = Some c'
    /\ Dashboard.type c' = Dashboard.newTypeFor level
    /\ Dashboard.data c' = Dashboard.data c
    /\ Dashboard.requests
         (Dashboard.deliver now d
            {| AttentionData.attentionLevel := level;
               AttentionData.shouldSwitchContent := true |})
       = Dashboard.requests d.
Proof.
  intros Hc. unfold Dashboard.deliver.
  rewrite (attentionEffect_redundant now now _ d).
  unfold Dashboard.handleAttentionChange. rewrite Hc.
  cbn [AttentionData.shouldSwitchContent AttentionData.attentionLevel].
  set (d1 := Dashboard.setAttentionData _ d).
  assert (Hc1 : Dashboard.currentData d1 = Some c) by exact Hc.
  destruct (updateContentType_result now level d1 c Hc1) as (Hcur & Hreq & _).
  rewrite Hcur, Hreq. eexists. split; [reflexivity|].
  destruct (String.eqb_spec (Dashboard.newTypeFor level) (Dashboard.type c));
    cbn; auto.
Qed.

(** ** A confirmation, end to end *)

(** X9: the "Switch Content" button on a dashboard with content, at a time
    that is not 0: when all renders are done the content has the format
    classified for the average the tracker showed, still with the payload
    it had and without any request; the tracker's dialog is closed and its
    cooldown reference is the time of the click. *)
Theorem confirm_switches_format
    (now : Z) (st : Tracker.State) (d : Dashboard.State)
    (c : Dashboard.ContentData) :
  Dashboard.currentData d = Some c ->
  now <> 0 ->
  let s' := System.step (st, d) (System.Confirm now) in
  (exists c',
     Dashboard.currentData (snd s') = Some c'
     /\ Dashboard.type c'
        = Dashboard.newTypeFor (Tracker.averageFocusScore st)
     /\ Dashboard.data c' = Dashboard.data c)
  /\ Dashboard.requests (snd s') = Dashboard.requests d
  /\ Tracker.lastSuggestionTimeRef (fst s') = Some now
  /\ Tracker.showContentSuggestionModal (fst s') = false.
Proof.
  intros Hc Hnow. cbn zeta.
  assert (Htracker :
    Tracker.lastSuggestionTimeRef
      (fst (System.step (st, d) (System.Confirm now))) = Some now
    /\ Tracker.showContentSuggestionModal
         (fst (System.step (st, d) (System.Confirm now))) = false).
  { destruct (step_tracker st d (System.Confirm now)) as [cb ->].
    split; [apply trackerAfter_ref|].
    destruct (Tracker.showContentSuggestionModal
                (trackerAfter cb (System.Confirm now) st)) eqn:Hm;
      [|reflexivity].
    apply trackerAfter_modal in Hm. contradiction. }
  destruct Htracker as [Href Hmodal].
  split; [|split; [|split; assumption]].
  - rewrite step_confirm. cbn zeta. cbn [snd].
    destruct (deliver_confirm now (Tracker.averageFocusScore st) d c Hc)
      as (c' & Hcur & Hty & Hdata & _).
    set (d1 := Dashboard.deliver now d _) in *.
    pose proof (commit_ambient Tracker.RENDER_FUEL now (System.callback d1)
                  (Tracker.handleDismissSuggestion now st)) as Ha.
    destruct (deliver_all_ambient now _ d1 Ha) as (Hsame & _).
    exists c'. unfold Dashboard.deliverAll. rewrite Hsame. auto.
  - rewrite step_confirm. cbn zeta. cbn [snd].
    destruct (deliver_confirm now (Tracker.averageFocusScore st) d c Hc)
      as (c' & _ & _ & _ & Hreq).
    set (d1 := Dashboard.deliver now d _) in *.
    pose proof (commit_ambient Tracker.RENDER_FUEL now (System.callback d1)
                  (Tracker.handleDismissSuggestion now st)) as Ha.
    destruct (deliver_all_ambient now _ d1 Ha) as (_ & _ & Hsame).
    unfold Dashboard.deliverAll. rewrite Hsame. exact Hreq.
Qed.

(** The dialog opened by five low samples over the text content,
    confirmed at time 10. *)
Lemma confirm_switches_format_low_session :
  Tracker.showContentSuggestionModal
    (fst (System.step (afterFiveLow, readingDashboard) (System.Confirm 10)))
  = false.
Proof.
  refine (proj2 (proj2 (proj2
            (confirm_switches_format 10 afterFiveLow readingDashboard
               {| Dashboard.focusScore := 89; Dashboard.type := "text";
                  Dashboard.data := Some "plain text"%string;
                  Dashboard.timestamp := None |} eq_refl _)))).
  lia.
Defined.

(** ** [fetchContent] *)

Lemma fetchContent_selected response d f :
  Dashboard.selectedFile d = Some f ->
  Dashboard.fetchContent response d
  = Dashboard.fetchContent_finish
      (AttentionData.attentionLevel (Dashboard.attentionData d)) response
      (Dashboard.postRequest (Dashboard.setIsLoading true d)).
Proof.
  intros Hf. unfold Dashboard.fetchContent, Dashboard.fetchContent_start.
  rewrite Hf. reflexivity.
Qed.

Lemma fetchContent_with_file response d f :
  Dashboard.selectedFile d = Some f ->
  Dashboard.requests (Dashboard.fetchContent response d)
  = S (Dashboard.requests d)
  /\ Dashboard.isLoading (Dashboard.fetchContent response d) = false
  /\ Dashboard.selectedFile (Dashboard.fetchContent response d) = Some f.
Proof.
  intros Hf. rewrite (fetchContent_selected _ d f Hf).
  unfold Dashboard.fetchContent_finish.
  destruct (Dashboard.tryBlock _ response); cbn; rewrite ?Hf; repeat split.
Qed.

(** X10: a successful fetch (a file is selected, the response is OK, the
    body is JSON and carries the section of the format classified for the
    current attention level) stores content of that format whose payload
    is the one the body supplies for it, with the level as focus score and
    no timestamp; one request is issued and loading ends. *)
Theorem fetch_stores_classified_content
    (d : Dashboard.State) (f : string) (body : Api.Result) (v : JS.any) :
  let level := AttentionData.attentionLevel (Dashboard.attentionData d) in
  Dashboard.selectedFile d = Some f ->
  Spec.sectionOf (Dashboard.newTypeFor level) body = Some v ->
  let d' := Dashboard.fetchContent (Api.Resolved true (Some body)) d in
  Dashboard.currentData d'
  = Some {| Dashboard.focusScore := level;
            Dashboard.type := Dashboard.newTypeFor level;
            Dashboard.data := JS.or_else v (Api.data body);
            Dashboard.timestamp := None |}
  /\ Spec.payloadFor (Dashboard.newTypeFor level) body
     = Some (JS.or_else v (Api.data body))
  /\ Dashboard.isLoading d' = false
  /\ Dashboard.requests d' = S (Dashboard.requests d)
  /\ Dashboard.attentionData d' = Dashboard.attentionData d.
Proof.
  cbn zeta. intros Hf Hsec.
  rewrite (fetchContent_selected _ d f Hf).
  unfold Dashboard.fetchContent_finish, Dashboard.tryBlock.
  rewrite assignTypeAndData_section, Hsec.
  unfold Spec.payloadFor. rewrite Hsec. repeat split.
Qed.

(** The fetch behind [readingDashboard], once more at level 89. *)
Lemma fetch_stores_classified_content_text :
  Dashboard.requests
    (Dashboard.fetchContent (Api.Resolved true (Some sampleBody))
       readingDashboard)
  = S (Dashboard.requests readingDashboard).
Proof.
  refine (proj1 (proj2 (proj2 (proj2
            (fetch_stores_classified_content readingDashboard "notes.pdf"
               sampleBody (Some "plain text"%string) _ _)))));
    reflexivity.
Defined.

(** X11: [fetchContent] without a selected file returns at once, leaving
    the state as it is and issuing no request; with a selected file it
    issues exactly one request and, whatever the answer (success or any
    failure), ends with the loading flag off. *)
Theorem fetch_request_accounting
    (response : Api.Response) (d : Dashboard.State) :
  (Dashboard.selectedFile d = None -> Dashboard.fetchContent response d = d)
  /\ (Dashboard.selectedFile d <> None ->
      Dashboard.requests (Dashboard.fetchContent response d)
      = S (Dashboard.requests d)
      /\ Dashboard.isLoading (Dashboard.fetchContent response d) = false
      /\ Dashboard.selectedFile (Dashboard.fetchContent response d)
         = Dashboard.selectedFile d).
Proof.
  split.
  - intros Hnone. unfold Dashboard.fetchContent, Dashboard.fetchContent_start.
    rewrite Hnone. reflexivity.
  - intros Hsome. destruct (Dashboard.selectedFile d) as [f|] eqn:Hf;
      [|congruence].
    rewrite (fetchContent_selected _ d f Hf).
    unfold Dashboard.fetchContent_finish.
    destruct (Dashboard.tryBlock _ response); cbn; rewrite ?Hf; repeat split.
Qed.

(** A rejected request while [notes.pdf] is selected. *)
Lemma fetch_request_accounting_rejected :
  Dashboard.isLoading (Dashboard.fetchContent Api.Rejected readingDashboard)
  = false.
Proof.
  refine (proj1 (proj2 (proj2 (fetch_request_accounting Api.Rejected
                                 readingDashboard) _))).
  discriminate.
Defined.

(** * File upload and selection *)

Lemma latestOf_snoc (files : list string) (f : string) :
  Files.latestOf (files ++ [f]) = Some f.
Proof.
  unfold Files.latestOf.
  destruct (files ++ [f]) as [|x rest] eqn:Hl.
  - destruct files; discriminate.
  - rewrite <- Hl, length_app. cbn [List.length].
    rewrite nth_error_app2 by lia.
    replace (List.length files + 1 - 1 - List.length files)%nat with 0%nat
      by lia.
    reflexivity.
Qed.

Lemma sameFile_eq (a b : option string) :
  Files.sameFile a b = true <-> a = b.
Proof.
  destruct a as [x|], b as [y|]; cbn; try (split; congruence).
  rewrite String.eqb_eq. split; congruence.
Qed.

Lemma selectionChanged_iff (s : Files.State) :
  Files.selectionChanged s = false <->
  Files.selectionSeen s = Some (Dashboard.selectedFile (Files.page s)).
Proof.
  unfold Files.selectionChanged.
  destruct (Files.selectionSeen s) as [seen|]; [|split; discriminate].
  rewrite negb_false_iff, sameFile_eq. split; congruence.
Qed.

(** X13: uploading a non-empty batch appends it to the list of files in
    order and selects its last file; unless the selection effect has
    already run for that very file, the effect then issues exactly one
    request, and the page ends with that file selected and not loading. *)
Theorem upload_selects_latest
    (files : list string) (f : string) (response : Api.Response)
    (s : Files.State) :
  Files.selectionSeen s <> Some (Some f) ->
  let s' := Files.selectionEffect response
              (Files.handleFileUpload (files ++ [f]) s) in
  Files.uploadedFiles s' = Files.uploadedFiles s ++ files ++ [f]
  /\ Dashboard.selectedFile (Files.page s') = Some f
  /\ Dashboard.requests (Files.page s')
     = S (Dashboard.requests (Files.page s))
  /\ Dashboard.isLoading (Files.page s') = false
  /\ Files.selectionSeen s' = Some (Some f).
Proof.
  intros Hnew. cbn zeta.
  unfold Files.handleFileUpload. cbn zeta. rewrite latestOf_snoc.
  unfold Files.selectionEffect.
  set (s1 := {| Files.showModal := Files.showModal s;
                Files.uploadedFiles := Files.uploadedFiles s ++ files ++ [f];
                Files.page := Files.setSelected (Some f) (Files.page s);
                Files.selectionSeen := Files.selectionSeen s |}).
  assert (Hch : Files.selectionChanged s1 = true).
  { destruct (Files.selectionChanged s1) eqn:E; [reflexivity|].
    apply selectionChanged_iff in E. cbn in E. contradiction. }
  rewrite Hch.
  cbn [Files.uploadedFiles Files.page Files.selectionSeen s1
       Files.setSelected Dashboard.selectedFile].
  destruct (fetchContent_with_file response
              (Files.setSelected (Some f) (Files.page s)) f eq_refl)
    as (Hreq & Hload & Hsel).
  rewrite Hreq, Hload, Hsel. repeat split.
Qed.

(** An upload of two files over the page showing [notes.pdf]. *)
Lemma upload_selects_latest_two_files :
  Dashboard.selectedFile
    (Files.page
       (Files.selectionEffect Api.Rejected
          (Files.handleFileUpload (["a.pdf"%string] ++ ["b.pdf"%string])
             readingFiles)))
  = Some "b.pdf"%string.
Proof.
  refine (proj1 (proj2 (upload_selects_latest ["a.pdf"%string] "b.pdf"
                          Api.Rejected readingFiles _))).
  discriminate.
Defined.

(** X14: an upload of no files clears the selection: [selectedFile]
    becomes [undefined], the list of files and the content shown stay as
    they are, and the selection effect issues no request. *)
Theorem empty_upload_clears_selection
    (response : Api.Response) (s : Files.State) :
  let s' := Files.selectionEffect response (Files.handleFileUpload [] s) in
  Dashboard.selectedFile (Files.page s') = None
  /\ Files.uploadedFiles s' = Files.uploadedFiles s
  /\ Dashboard.currentData (Files.page s')
     = Dashboard.currentData (Files.page s)
  /\ Dashboard.requests (Files.page s') = Dashboard.requests (Files.page s).
Proof.
  cbn zeta. unfold Files.selectionEffect, Files.handleFileUpload.
  cbn zeta. cbn [Files.latestOf].
  destruct (Files.selectionChanged _);
    cbn; rewrite app_nil_r; repeat split.
Qed.

(** X15: viewing a file when the selection effect is up to date: viewing
    the file already selected changes nothing and issues no request;
    viewing another file issues exactly one request and selects it. *)
Theorem view_refetches_only_on_change
    (file : string) (response : Api.Response) (s : Files.State) :
  Files.selectionSeen s = Some (Dashboard.selectedFile (Files.page s)) ->
  let s' := Files.selectionEffect response (Files.handleFileView file s) in
  (Dashboard.selectedFile (Files.page s) = Some file ->
   Dashboard.requests (Files.page s') = Dashboard.requests (Files.page s)
   /\ Dashboard.currentData (Files.page s')
      = Dashboard.currentData (Files.page s))
  /\ (Dashboard.selectedFile (Files.page s) <> Some file ->
      Dashboard.requests (Files.page s')
      = S (Dashboard.requests (Files.page s))
      /\ Dashboard.selectedFile (Files.page s') = Some file).
Proof.
  intros Hseen. cbn zeta. unfold Files.selectionEffect.
  set (s1 := Files.handleFileView file s).
  assert (Hch : Files.selectionChanged s1 = false <->
                Dashboard.selectedFile (Files.page s) = Some file).
  { rewrite selectionChanged_iff. cbn. rewrite Hseen. split; congruence. }
  split.
  - intros Hsame. apply Hch in Hsame. rewrite Hsame. split; reflexivity.
  - intros Hdiff.
    destruct (Files.selectionChanged s1) eqn:E;
      [|exfalso; apply Hdiff, Hch; reflexivity].
    cbn [Files.page s1 Files.handleFileView Files.setSelected
         Dashboard.selectedFile].
    destruct (fetchContent_with_file response
                (Files.setSelected (Some file) (Files.page s)) file eq_refl)
      as (Hreq & _ & Hsel).
    rewrite Hreq, Hsel. split; reflexivity.
Qed.

(** Viewing [notes.pdf] again while it is shown. *)
Lemma view_refetches_only_on_change_same_file :
  Dashboard.requests
    (Files.page (Files.selectionEffect Api.Rejected
                   (Files.handleFileView "notes.pdf" readingFiles)))
  = Dashboard.requests (Files.page readingFiles).
Proof.
  refine (proj1 (proj1 (view_refetches_only_on_change "notes.pdf"
                          Api.Rejected readingFiles _) _));
    reflexivity.
Defined.

(** * The display helpers *)

(** X16: the label and the two colour computations of the tracker agree
    for every level: the bar and the label have the same colour, which is
    red exactly with "Take a break!" (below 30), yellow exactly with "We
    can do better" (30 to 69), and green exactly with "LOCKED IN" (70 to
    89) or "LFG" (90 and above). *)
Theorem label_and_colour_agree (level : Z) :
  Display.getProgressColor level = Display.labelColor level
  /\ (level < 30 <->
      Display.getAttentionLabel level = "Take a break!"%string)
  /\ (Display.getProgressColor level = "#ef4444"%string <->
      Display.getAttentionLabel level = "Take a break!"%string)
  /\ (Display.getProgressColor level = "#eab308"%string <->
      Display.getAttentionLabel level = "We can do better"%string)
  /\ (Display.getProgressColor level = "#22c55e"%string <->
      Display.getAttentionLabel level = "LOCKED IN"%string
      \/ Display.getAttentionLabel level = "LFG"%string)
  /\ (90 <= level <-> Display.getAttentionLabel level = "LFG"%string).
Proof.
  unfold Display.getProgressColor, Display.labelColor,
    Display.getAttentionLabel.
  destruct (Z.ltb_spec level 30), (Z.ltb_spec level 70),
    (Z.ltb_spec level 90); try lia;
    repeat split; intros; try reflexivity; try discriminate; try lia;
    try (left; reflexivity); try (right; reflexivity);
    try (destruct H2; discriminate).
Qed.

(** * The level on display *)

Lemma commit_level fuel now cb :
  forall st,
    Tracker.attentionLevel (fst (Tracker.commit fuel now cb st))
    = Tracker.attentionLevel st.
Proof.
  induction fuel as [|fuel IH]; intros st; cbn [Tracker.commit];
    [reflexivity|].
  destruct (Tracker.depsChanged cb st); [|reflexivity].
  set (st0 := Tracker.setEffectDeps (Tracker.currentDeps cb st) st).
  pose proof (averageEffect_frame now cb st0) as (_ & _ & _ & _ & Fl).
  destruct (Tracker.averageEffect now cb st0) as [st1 out1].
  specialize (IH st1).
  destruct (Tracker.commit fuel now cb st1) as [st2 out2].
  cbn [fst] in *. rewrite IH, Fl. reflexivity.
Qed.

Lemma trackerAfter_level cb e st :
  Tracker.attentionLevel (trackerAfter cb e st)
  = last (roundedSamples [e]) (Tracker.attentionLevel st).
Proof.
  destruct e as [now [q|]|now|now|now]; cbn [trackerAfter roundedSamples
    flat_map app last].
  - unfold Tracker.onSample.
    set (st1 := fst (fst (Tracker.onFocusScoreUpdate (Some q) st))).
    change (Tracker.onFocusScoreUpdate (Some q) st)
      with (st1, @nil Tracker.Output, true).
    cbn iota.
    pose proof (commit_level Tracker.RENDER_FUEL now cb st1) as Hl.
    destruct (Tracker.commit Tracker.RENDER_FUEL now cb st1). exact Hl.
  - reflexivity.
  - exact (commit_level Tracker.RENDER_FUEL now cb
             (Tracker.handleDismissSuggestion now st)).
  - exact (commit_level Tracker.RENDER_FUEL now cb
             (Tracker.handleDismissSuggestion now st)).
  - exact (commit_level Tracker.RENDER_FUEL now cb
             (Tracker.onOpenChange false st)).
Qed.

Lemma last_default {A : Type} (l : list A) (d d' : A) :
  l <> [] -> last l d = last l d'.
Proof.
  induction l as [|x l IH]; intros Hne; [congruence|].
  destruct l as [|y l]; [reflexivity|].
  change (last (y :: l) d = last (y :: l) d'). apply IH. discriminate.
Qed.

Lemma last_append {A : Type} (xs ys : list A) (d : A) :
  last (xs ++ ys) d = last ys (last xs d).
Proof.
  induction xs as [|x xs IH]; [reflexivity|].
  destruct xs as [|x' xs].
  - destruct ys as [|y ys]; [reflexivity|].
    change (last (y :: ys) d = last (y :: ys) x).
    apply last_default. discriminate.
  - change (last ((x' :: xs) ++ ys) d = last ys (last (x' :: xs) d)).
    exact IH.
Qed.

(** X17: the level on display ([attentionLevel], the large percentage, the
    bar and the label) is the latest numeric sample rounded, not the
    smoothed signal: over any session from a fresh tracker it is the last
    rounded sample, or the default 75 when none has arrived; dialogs and
    undefined samples do not change it. *)
Theorem displayed_level_is_latest_sample
    (events : list System.Event) (st : Tracker.State) (d : Dashboard.State) :
  Tracker.attentionLevel (fst (System.run events (st, d)))
  = last (roundedSamples events) (Tracker.attentionLevel st)
  /\ Tracker.attentionLevel (fst (System.run events (Tracker.initial, d)))
     = last (roundedSamples events) 75.
Proof.
  assert (Hgen : forall evs s0 d0,
            Tracker.attentionLevel (fst (System.run evs (s0, d0)))
            = last (roundedSamples evs) (Tracker.attentionLevel s0)).
  { induction evs as [|e evs IH]; intros s0 d0; [reflexivity|].
    cbn [System.run fold_left].
    destruct (step_tracker s0 d0 e) as [cb Hstep].
    destruct (System.step (s0, d0) e) as [s1 d1]. cbn [fst] in Hstep.
    subst s1. unfold System.run in IH.
    rewrite IH, trackerAfter_level, (roundedSamples_cons e evs), last_append.
    reflexivity. }
  split; apply Hgen.
Qed.

Example mixed_session_window :
  let st := fst (System.run mixedSession (Tracker.initial, readingDashboard)) in
  roundedSamples mixedSession = [4; 150; 3]
  /\ Tracker.focusScoreHistory st = [4; 150; 3]
  /\ Tracker.averageFocusScore st = 52
  /\ Tracker.attentionLevel st = 3.
Proof. vm_compute. repeat split; reflexivity. Qed.

(** * Closing the dialog, through the renders that follow *)

Lemma step_close_tracker st d closed :
  fst (System.step (st, d) (System.Close closed))
  = fst (Tracker.onClose closed (System.callback d) st).
Proof.
  cbn [System.step]. destruct (Tracker.onClose _ _ _). reflexivity.
Qed.

Lemma settled_recorded cb st : settled cb st -> recorded st.
Proof. unfold settled, recorded. intros ->. cbn. lia. Qed.

Lemma qualifies_empty now st :
  Tracker.focusScoreHistory st = [] -> qualifies now st = false.
Proof. intros Hh. unfold qualifies. rewrite Hh. reflexivity. Qed.

(** The closing of an open dialog and the render it causes: the flag ends
    up set exactly when the history qualifies at that moment. *)
Lemma onClose_modal closed cb st :
  settled cb st ->
  Tracker.showContentSuggestionModal st = true ->
  Tracker.showContentSuggestionModal (fst (Tracker.onClose closed cb st))
  = qualifies closed st.
Proof.
  intros Hset Hopen. unfold Tracker.onClose.
  rewrite <- (qualifies_ext closed st (Tracker.onOpenChange false st))
    by reflexivity.
  destruct (Tracker.focusScoreHistory st) as [|x h] eqn:Hh.
  - destruct (commit_empty Tracker.RENDER_FUEL closed cb
                (Tracker.onOpenChange false st) Hh) as (_ & _ & Hm & _).
    rewrite Hm, qualifies_empty by exact Hh. reflexivity.
  - assert (Hne : Tracker.focusScoreHistory (Tracker.onOpenChange false st)
                  <> []).
    { change (Tracker.focusScoreHistory st <> []). rewrite Hh. discriminate. }
    pose proof (commit_changed 2 closed cb (Tracker.onOpenChange false st)
                  (close_changes_deps _ _ Hset Hopen) Hne) as H.
    cbn zeta in H. destruct H as (_ & _ & _ & _ & Hm & _).
    exact Hm.
Qed.

Lemma run_samples_ref events :
  forall st d,
    onlySamples events = true ->
    Tracker.lastSuggestionTimeRef (fst (System.run events (st, d)))
    = Tracker.lastSuggestionTimeRef st.
Proof.
  induction events as [|e events IH]; intros st d Hs; [reflexivity|].
  cbn [onlySamples forallb] in Hs. apply andb_true_iff in Hs.
  destruct Hs as [He Hrest].
  cbn [System.run fold_left].
  destruct (step_tracker st d e) as [cb Hstep].
  destruct (System.step (st, d) e) as [st1 d1]. cbn [fst] in Hstep.
  subst st1. unfold System.run in IH. rewrite (IH _ d1 Hrest).
  destruct e as [now focusScore|now|now|now]; try discriminate.
  apply trackerAfter_ref.
Qed.

(** C10: closing the open dialog through [onOpenChange] clears the modal
    flag and leaves [lastSuggestionTimeRef] as it was, also after the
    renders that follow and after any samples: no cooldown begins.  After
    the closing and its render the dialog is closed, unless the history it
    had still qualifies (five entries, rounded mean below 40), in which
    case that render has already re-opened it.  And a dialog that is still
    closed after further samples is re-opened by the next sample exactly
    when that sample leaves a history of five entries with rounded mean
    below 40: the cooldown, over when the dialog opened (time [opened]),
    never stands in the way. *)
Theorem close_starts_no_cooldown
    (opened closed next : Z) (q : Q) (between : list System.Event)
    (st : Tracker.State) (d : Dashboard.State) :
  settled (System.callback d) st ->
  Tracker.showContentSuggestionModal st = true ->
  Tracker.isOnCooldown (Tracker.lastSuggestionTimeRef st) opened = false ->
  opened <= closed <= next ->
  onlySamples between = true ->
  let s1 := System.step (st, d) (System.Close closed) in
  let s2 := System.run between s1 in
  let s3 := System.step s2 (System.Sample next (Some q)) in
  Tracker.showContentSuggestionModal (Tracker.onOpenChange false st) = false
  /\ Tracker.lastSuggestionTimeRef (Tracker.onOpenChange false st)
     = Tracker.lastSuggestionTimeRef st
  /\ Tracker.lastSuggestionTimeRef (fst s1) = Tracker.lastSuggestionTimeRef st
  /\ Tracker.lastSuggestionTimeRef (fst s3) = Tracker.lastSuggestionTimeRef st
  /\ (Tracker.showContentSuggestionModal (fst s1) = true <->
      (5 <= List.length (Tracker.focusScoreHistory st))%nat
      /\ Spec.roundedMean (Tracker.focusScoreHistory st) < 40)
  /\ (Tracker.showContentSuggestionModal (fst s2) = false ->
      (Tracker.showContentSuggestionModal (fst s3) = true <->
       (5 <= List.length (Tracker.focusScoreHistory (fst s3)))%nat
       /\ Spec.roundedMean (Tracker.focusScoreHistory (fst s3)) < 40)).
Proof.
  intros Hset Hopen Hcd Htime Hsamples. cbn zeta.
  pose proof (settled_recorded _ _ Hset) as Hrec.
  assert (Hr1 : Tracker.lastSuggestionTimeRef
                  (fst (System.step (st, d) (System.Close closed)))
                = Tracker.lastSuggestionTimeRef st).
  { rewrite step_close_tracker.
    exact (trackerAfter_ref (System.callback d) (System.Close closed) st). }
  assert (Hrec1 : recorded (fst (System.step (st, d) (System.Close closed)))).
  { rewrite step_close_tracker.
    exact (trackerAfter_recorded (System.callback d) (System.Close closed)
             st Hrec). }
  assert (Hm1 : Tracker.showContentSuggestionModal
                  (fst (System.step (st, d) (System.Close closed)))
                = qualifies closed st).
  { rewrite step_close_tracker. apply onClose_modal; assumption. }
  destruct (System.step (st, d) (System.Close closed)) as [st1 d1].
  cbn [fst] in Hr1, Hrec1, Hm1.
  pose proof (run_samples_ref between st1 d1 Hsamples) as Hr2.
  destruct (run_tracker between st1 d1 Hrec1) as (Hrec2 & _ & _).
  destruct (System.run between (st1, d1)) as [st2 d2].
  cbn [fst] in Hr2, Hrec2 |- *.
  rewrite step_sample_tracker.
  pose proof (onSample_numeric next (System.callback d2) q st2 Hrec2) as H.
  cbn zeta in H. destruct H as (Hh3 & Hr3 & _ & Hm3 & _).
  assert (Hq3 : qualifies next
                  (fst (fst (Tracker.onFocusScoreUpdate (Some q) st2))) = true
                <-> (5 <= List.length
                            (Tracker.focusScoreHistory
                               (fst (Tracker.onSample next (System.callback d2)
                                       (Some q) st2))))%nat
                    /\ Spec.roundedMean
                         (Tracker.focusScoreHistory
                            (fst (Tracker.onSample next (System.callback d2)
                                    (Some q) st2))) < 40).
  { rewrite qualifies_iff, Hh3.
    cbn [Tracker.onFocusScoreUpdate fst Tracker.focusScoreHistory
         Tracker.lastSuggestionTimeRef].
    rewrite Hr2, Hr1.
    assert (Hover : Tracker.isOnCooldown (Tracker.lastSuggestionTimeRef st)
                      next = false)
      by (apply (cooldown_monotone _ opened next); [lia | exact Hcd]).
    tauto. }
  split; [reflexivity|]. split; [reflexivity|]. split; [exact Hr1|].
  split; [rewrite Hr3, Hr2; exact Hr1|]. split.
  - rewrite Hm1, qualifies_iff.
    assert (Hover : Tracker.isOnCooldown (Tracker.lastSuggestionTimeRef st)
                      closed = false)
      by (apply (cooldown_monotone _ opened closed); [lia | exact Hcd]).
    tauto.
  - intros Hclosed. rewrite Hm3, Hclosed. cbn [orb]. exact Hq3.
Qed.

(** The dialog opened by five low samples at time 4; two samples of 100
    lift the mean to 46 while it is open; it is closed at time 7 and stays
    closed over three low samples; the fourth, at time 11, brings the mean
    to 28 and opens it again. *)
Lemma close_starts_no_cooldown_recovered_session :
  let s1 := System.step (afterRecovery, readingDashboard) (System.Close 7) in
  let s2 := System.run (sampleEvents [(8, 10); (9, 10); (10, 10)]) s1 in
  let s3 := System.step s2 (System.Sample 11 (Some (inject_Z 10))) in
  Tracker.showContentSuggestionModal afterRecovery = true
  /\ Tracker.showContentSuggestionModal (fst s1) = false
  /\ Tracker.showContentSuggestionModal (fst s2) = false
  /\ Tracker.showContentSuggestionModal (fst s3) = true
  /\ Tracker.lastSuggestionTimeRef (fst s3)
     = Tracker.lastSuggestionTimeRef afterRecovery.
Proof.
  cbn zeta.
  assert (Hset : settled (System.callback readingDashboard) afterRecovery)
    by reflexivity.
  assert (Hopen : Tracker.showContentSuggestionModal afterRecovery = true)
    by reflexivity.
  assert (Hcd : Tracker.isOnCooldown
                  (Tracker.lastSuggestionTimeRef afterRecovery) 4 = false)
    by reflexivity.
  assert (Htime : 4 <= 7 <= 11) by lia.
  assert (Hsamples : onlySamples (sampleEvents [(8, 10); (9, 10); (10, 10)])
                     = true) by reflexivity.
  destruct (close_starts_no_cooldown 4 7 11 (inject_Z 10)
              (sampleEvents [(8, 10); (9, 10); (10, 10)])
              afterRecovery readingDashboard Hset Hopen Hcd Htime Hsamples)
    as (_ & _ & _ & Href & Hclose & Hreopen).
  assert (Hstill : Tracker.showContentSuggestionModal
                     (fst (System.run
                             (sampleEvents [(8, 10); (9, 10); (10, 10)])
                             (System.step (afterRecovery, readingDashboard)
                                (System.Close 7)))) = false)
    by reflexivity.
  split; [exact Hopen|]. split; [|split; [exact Hstill|split; [|exact Href]]].
  - apply not_true_is_false. intros Hs1. apply Hclose in Hs1.
    destruct Hs1 as [_ Hmean]. vm_compute in Hmean. discriminate.
  - apply (Hreopen Hstill). split; [vm_compute; lia | vm_compute; reflexivity].
Defined.

(** * Suspended fetches *)

Lemma deliver_attentionData now d a :
  Dashboard.attentionData (Dashboard.deliver now d a) = a.
Proof.
  unfold Dashboard.deliver. rewrite attentionEffect_redundant.
  unfold Dashboard.handleAttentionChange.
  destruct (Dashboard.currentData d) as [c|] eqn:Hc; [|reflexivity].
  destruct (AttentionData.shouldSwitchContent a); [|reflexivity].
  apply (updateContentType_result now _ (Dashboard.setAttentionData a d) c Hc).
Qed.

Lemma notify_all now (notes : list AttentionData.t) :
  forall s,
    Pending.suspended (fold_left (Pending.notify now) notes s)
    = Pending.suspended s
    /\ Dashboard.attentionData
         (Pending.page (fold_left (Pending.notify now) notes s))
       = last notes (Dashboard.attentionData (Pending.page s)).
Proof.
  induction notes as [|a notes IH]; intros s; [split; reflexivity|].
  cbn [fold_left]. destruct (IH (Pending.notify now s a)) as (Hs & Ha).
  rewrite Hs, Ha. split; [reflexivity|].
  cbn [Pending.notify Pending.page]. rewrite deliver_attentionData.
  destruct notes as [|b notes]; [reflexivity|].
  change (last (b :: notes) a
          = last (b :: notes) (Dashboard.attentionData (Pending.page s))).
  apply last_default. discriminate.
Qed.

(** X12: a call of [fetchContent] classifies by the attention level of the
    render that made it.  Whatever notifications arrive while it is
    suspended (ambient ones, or confirmations that switch the format),
    when the successful response arrives the content stored has the format
    of the level the page had when the call started, not that of the
    latest notification, which [attentionData] then holds. *)
Theorem fetch_uses_captured_level
    (now : Z) (s : Pending.State) (f : string)
    (notes : list AttentionData.t) (body : Api.Result) (v : JS.any) :
  let captured :=
    AttentionData.attentionLevel (Dashboard.attentionData (Pending.page s)) in
  Dashboard.selectedFile (Pending.page s) = Some f ->
  Spec.sectionOf (Dashboard.newTypeFor captured) body = Some v ->
  let s' := Pending.resolve (List.length (Pending.suspended s))
              (Api.Resolved true (Some body))
              (fold_left (Pending.notify now) notes (Pending.start s)) in
  Dashboard.format (Pending.page s') = Some (Dashboard.newTypeFor captured)
  /\ Dashboard.attentionData (Pending.page s')
     = last notes (Dashboard.attentionData (Pending.page s))
  /\ Pending.suspended s' = Pending.suspended s.
Proof.
  cbn zeta. intros Hf Hsec.
  assert (Hstart : Pending.start s
                   = {| Pending.page :=
                          Dashboard.postRequest
                            (Dashboard.setIsLoading true (Pending.page s));
                        Pending.suspended :=
                          Pending.suspended s
                          ++ [AttentionData.attentionLevel
                                (Dashboard.attentionData (Pending.page s))] |}).
  { unfold Pending.start, Dashboard.fetchContent_start. rewrite Hf.
    reflexivity. }
  rewrite Hstart.
  destruct (notify_all now notes
              {| Pending.page :=
                   Dashboard.postRequest
                     (Dashboard.setIsLoading true (Pending.page s));
                 Pending.suspended :=
                   Pending.suspended s
                   ++ [AttentionData.attentionLevel
                         (Dashboard.attentionData (Pending.page s))] |})
    as (Hs & Ha).
  cbn [Pending.suspended Pending.page] in Hs, Ha.
  unfold Pending.resolve. rewrite Hs.
  rewrite nth_error_app2, Nat.sub_diag by lia. cbn [nth_error].
  cbn [Pending.page Pending.suspended].
  unfold Dashboard.fetchContent_finish, Dashboard.tryBlock.
  rewrite assignTypeAndData_section, Hsec.
  split; [reflexivity|]. split.
  - cbn [Dashboard.setIsLoading Dashboard.setCurrentData
         Dashboard.attentionData].
    exact Ha.
  - rewrite firstn_app, Nat.sub_diag, firstn_all, skipn_all2
      by (rewrite length_app; cbn; lia).
    cbn [firstn]. rewrite !app_nil_r. reflexivity.
Qed.

(** A fetch started at level 89; the level drops to 15 and the viewer even
    confirms a switch while it is suspended; the content stored is text
    all the same. *)
Lemma fetch_uses_captured_level_drop :
  Dashboard.format
    (Pending.page
       (Pending.resolve 0 (Api.Resolved true (Some sampleBody))
          (fold_left (Pending.notify 7)
             [ambient 15;
              {| AttentionData.attentionLevel := 15;
                 AttentionData.shouldSwitchContent := true |}]
             (Pending.start
                {| Pending.page := readingDashboard;
                   Pending.suspended := [] |}))))
  = Some "text"%string.
Proof.
  refine (proj1 (fetch_uses_captured_level 7
                   {| Pending.page := readingDashboard;
                      Pending.suspended := [] |}
                   "notes.pdf" _ sampleBody (Some "plain text"%string) _ _));
    reflexivity.
Defined.
